(** * Logo-Liquify: the icon-injection pipeline of [backend.py]

    A shallow embedding of [IconHandler] (src/backend.py): the Python string
    and path helpers it calls, the exceptions it raises and catches, the part
    of the file system it reads and writes, and its five stages run in
    sequence by [__init__]. *)

From Stdlib Require Import Ascii String.
From stdpp Require Import gmap strings list fin_maps pretty.

Set Warnings "-register-all".
Set Default Proof Using "Type".

Open Scope string_scope.
Open Scope list_scope.

(** ** Python strings *)

Module PyStr.

(** [s.split(sep)] for a one-character separator, the only form the source
    uses ([split("/")], [split(".")]).  The result is never empty. *)
Fixpoint split (sep : ascii) (s : string) : list string :=
  match s with
  | EmptyString => [ EmptyString ]
  | String c s' =>
      if Ascii.eqb c sep then EmptyString :: split sep s'
      else match split sep s' with
           | w :: ws => String c w :: ws
           | [] => [ String c EmptyString ]
           end
  end.

(** [l[-1]] and [l[0]]: both raise IndexError on an empty list. *)
Definition item_last (l : list string) : option string := last l.
Definition item_first (l : list string) : option string := head l.

(** [s.startswith(p)] *)
Fixpoint startswith (p s : string) : bool :=
  match p, s with
  | EmptyString, _ => true
  | String a p', String b s' => Ascii.eqb a b && startswith p' s'
  | String _ _, EmptyString => false
  end.

(** [sub in s]: the substring test on strings. *)
Fixpoint contains (sub s : string) : bool :=
  startswith sub s ||
  match s with
  | EmptyString => false
  | String _ s' => contains sub s'
  end.

(** [s.rfind(c)] for a one-character [c]; [None] stands for Python's -1. *)
Fixpoint rfind (c : ascii) (s : string) : option nat :=
  match s with
  | EmptyString => None
  | String a s' =>
      match rfind c s' with
      | Some i => Some (S i)
      | None => if Ascii.eqb a c then Some 0 else None
      end
  end.

(** [s[:n]] and [s[n:]] *)
Fixpoint take (n : nat) (s : string) : string :=
  match n, s with
  | S n', String a s' => String a (take n' s')
  | _, _ => EmptyString
  end.

Fixpoint drop (n : nat) (s : string) : string :=
  match n, s with
  | S n', String _ s' => drop n' s'
  | _, _ => s
  end.

(** some character of [s] differs from [c] *)
Fixpoint has_other (c : ascii) (s : string) : bool :=
  match s with
  | EmptyString => false
  | String a s' => negb (Ascii.eqb a c) || has_other c s'
  end.

(** [os.path.splitext(p)] on POSIX (genericpath._splitext with sep "/",
    no altsep, extsep "."): split at the last dot when it lies after the
    last separator and the file name does not consist of leading dots
    only. *)
Definition splitext (p : string) : string * string :=
  let sepIndex := rfind "/" p in
  let dotIndex := rfind "." p in
  match dotIndex with
  | None => (p, EmptyString)
  | Some d =>
      let filenameIndex := match sepIndex with None => 0 | Some i => S i end in
      if decide (filenameIndex <= d) then
        if has_other "." (take (d - filenameIndex) (drop filenameIndex p))
        then (take d p, drop d p)
        else (p, EmptyString)
      else (p, EmptyString)
  end.

End PyStr.

(** ** Python exceptions *)

Module Py.

(** The exception classes backend.py and the library calls it makes can
    raise.  [ShutilError] is [shutil.Error], [InvalidFileException] is
    plistlib's, [ExpatError] is the XML parser's. *)
Inductive exn_class :=
| OSError | FileNotFoundError | FileExistsError | NotADirectoryError
| IsADirectoryError | PermissionError | ShutilError
| RuntimeError | RecursionError
| ValueError | InvalidFileException
| AttributeError | TypeError | IndexError | ExpatError
| ArithmeticError | OverflowError.

#[global] Instance exn_class_eq_dec : EqDecision exn_class.
Proof. solve_decision. Defined.

(** the direct base class, below [Exception] *)
Definition base (c : exn_class) : option exn_class :=
  match c with
  | FileNotFoundError | FileExistsError | NotADirectoryError
  | IsADirectoryError | PermissionError | ShutilError => Some OSError
  | RecursionError => Some RuntimeError
  | InvalidFileException => Some ValueError
  | OverflowError => Some ArithmeticError
  | _ => None
  end.

(** [issubclass(c, d)] *)
Definition issubclass (c d : exn_class) : bool :=
  bool_decide (c = d) ||
  match base c with
  | Some b => bool_decide (b = d)
  | None => false
  end.

Record exn := Exn { exn_type : exn_class; exn_text : string }.

(** [isinstance(e, (c1, c2, ...))], the test of an [except] clause *)
Definition isinstance (e : exn) (cs : list exn_class) : bool :=
  existsb (issubclass (exn_type e)) cs.

Inductive outcome (A : Type) :=
| Return (a : A)
| Raise (e : exn).
Arguments Return {A} a.
Arguments Raise {A} e.

End Py.
Import Py.

(** ** Property lists, as [plistlib] parses them *)

(** The values [plistlib.load] returns: str, int, float, bool, bytes,
    datetime, list and dict with string keys.  Floats and dates are kept as
    the text the file holds for them. *)
Inductive plist :=
| PStr (s : string)
| PInt (z : Z)
| PReal (text : string)
| PBool (b : bool)
| PData (bytes : string)
| PDate (text : string)
| PArray (items : list plist)
| PDict (entries : gmap string plist).

(** What [plistlib.load] makes of a file's bytes: an exception for a
    malformed file, the parsed root value otherwise. *)
Inductive plistFile :=
| Unparseable (e : exn)
| Parsed (root : plist).

(** What [with open(path, "wb") as f: plistlib.dump(value, f)] leaves of
    the file.  [open] empties it before the serializer runs.  Either the
    serializer raises [raised] part of the way and the file stays cut
    short, so that [plistlib.load] raises [unreadable] on it; or it
    returns, and the file is what [plistlib.load] makes of the bytes
    written, which need not be the value handed over and need not parse. *)
Inductive written :=
| CutShort (raised unreadable : exn)
| Whole (f : plistFile).

(** ** The file system the pipeline touches *)

Inductive node :=
| File (data : string)
| Dir (children : gmap string node).

(** The four places backend.py reads or writes: [./OutputDir], and inside
    the bundle [Contents/Info.plist], [Contents/Resources] and
    [Contents/_CodeSignature].  [None] is an absent path. *)
Record fs := Fs {
  outputDir : option node;
  infoPlist : option plistFile;
  resources : option node;
  codeSignature : option node
}.

Module FS.

Definition is_file (n : node) : bool :=
  match n with File _ => true | Dir _ => false end.

Definition err {A} (c : exn_class) (msg : string) : exn + A := inl (Exn c msg).

(** the names [os.listdir] reports, before the platform orders them *)
Definition names (p : option node) : exn + list string :=
  match p with
  | None => err FileNotFoundError "No such file or directory"
  | Some (File _) => err NotADirectoryError "Not a directory"
  | Some (Dir d) => inr (map_to_list d).*1
  end.

(** [os.mkdir] of entry [name] in a directory *)
Definition mkdir (d : gmap string node) (name : string) : exn + gmap string node :=
  match d !! name with
  | Some _ => err FileExistsError "File exists"
  | None => inr (<[name := Dir ∅]> d)
  end.

(** [shutil.rmtree(path)] on one of the top-level places *)
Definition rmtree (p : option node) : exn + option node :=
  match p with
  | None => err FileNotFoundError "No such file or directory"
  | Some (File _) => err NotADirectoryError "Not a directory"
  | Some (Dir _) => inr None
  end.

(** [os.rename(d/old, d/new)] on POSIX, both names in one directory *)
Definition rename (d : gmap string node) (old new : string) : exn + gmap string node :=
  match d !! old with
  | None => err FileNotFoundError "No such file or directory"
  | Some src =>
      if decide (old = new) then inr d
      else
        match d !! new, src with
        | None, _ => inr (<[new := src]> (delete old d))
        | Some (File _), File _ => inr (<[new := src]> (delete old d))
        | Some (File _), Dir _ => err NotADirectoryError "Not a directory"
        | Some (Dir _), File _ => err IsADirectoryError "Is a directory"
        | Some (Dir c), Dir _ =>
            if bool_decide (size c = 0) then inr (<[new := src]> (delete old d))
            else err OSError "Directory not empty"
        end
  end.

(** [shutil.move(S/name, D/dname)] for two different directories with
    entries [srcd] and [dstd]: into [D/dname] when that is a directory
    (refusing an entry that is already there), else by [os.rename], which
    replaces a regular file by a regular file; the copy fallback after a
    failed rename of a directory onto a file ends in [FileExistsError]. *)
Definition move (srcd : gmap string node) (name : string)
    (dstd : gmap string node) (dname : string)
    : exn + (gmap string node * gmap string node) :=
  match dstd !! dname with
  | Some (Dir c) =>
      match c !! name with
      | Some _ => err ShutilError "Destination path already exists"
      | None =>
          match srcd !! name with
          | None => err FileNotFoundError "No such file or directory"
          | Some n => inr (delete name srcd, <[dname := Dir (<[name := n]> c)]> dstd)
          end
      end
  | Some (File _) =>
      match srcd !! name with
      | None => err FileNotFoundError "No such file or directory"
      | Some (File x) => inr (delete name srcd, <[dname := File x]> dstd)
      | Some (Dir _) => err FileExistsError "File exists"
      end
  | None =>
      match srcd !! name with
      | None => err FileNotFoundError "No such file or directory"
      | Some n => inr (delete name srcd, <[dname := n]> dstd)
      end
  end.

(** [shutil.move(R/f, R/oldFiles/f)]: the destination directory is an
    entry of the source directory [rs]. *)
Definition move_into_backup (rs : gmap string node) (f : string) : exn + gmap string node :=
  match rs !! "oldFiles" with
  | None => err FileNotFoundError "No such file or directory"
  | Some (File _) => err NotADirectoryError "Not a directory"
  | Some (Dir b) =>
      if decide (f = "oldFiles")
      then err ShutilError "Cannot move a directory into itself"
      else match move rs f b f with
           | inl e => inl e
           | inr (rs', b') => inr (<["oldFiles" := Dir b']> rs')
           end
  end.

End FS.

(** ** The environment: external tools and platform behaviour *)

(** [subprocess.CompletedProcess] *)
Record completed := Completed {
  returncode : Z;
  proc_stdout : string;
  proc_stderr : string
}.

(** What lies outside backend.py, one field per library or tool call.
    A tool's effect on the disk is the one its command line contract names:
    [actool] fills the directory given to [--compile], [codesign] rewrites
    the bundle's signature directory, [clear] and [xattr] leave the modelled
    places alone.  [subprocess.run] raises when the program cannot be
    started. *)
Record env := Env {
  (** [Path(p).resolve(strict=False)] for the path built from [p]: the
      exception it raises, if any *)
  path_resolve : string -> option exn;
  (** [str(Path(p))] *)
  pathlib_str : string -> string;
  (** the order in which [os.listdir] reports a directory's names *)
  listing : list string -> list string;
  (** [shutil.which] *)
  which : string -> option string;
  run_clear : exn + completed;
  run_actool_bare : exn + completed;
  (** argv, entries of the output directory before: result and entries after *)
  run_actool : list string -> gmap string node -> exn + (completed * gmap string node);
  run_xattr : list string -> exn + completed;
  (** argv, disk before: result and the signature directory after *)
  run_codesign : list string -> fs -> exn + (completed * option node);
  (** [plistlib.dump] of a value into the file just opened for writing *)
  plist_dump : plist -> written
}.

(** [os.listdir] returns every name once, in an order of the platform's
    choosing. *)
Definition listing_ok (E : env) : Prop :=
  forall l : list string, listing E l ≡ₚ l.

(** ** IconHandler *)

(** constructor arguments *)
Record cfg := Cfg {
  appBundlePath : string;
  iconBundlePath : string;
  cliBased : bool;
  verboseErrors : bool
}.

Inductive stage :=
| ValidateData | CompileIcon | UpdateInfoPlist | MoveIconToApp | ResignAppForLocalUse.

#[global] Instance stage_eq_dec : EqDecision stage.
Proof. solve_decision. Defined.

(** The instance and the world it runs in: the disk, the attribute
    [self.iconName] ([None] until [compileIcon] assigns it), the lines
    printed so far, and two records kept for the statements below: the
    argument vectors handed to [subprocess.run] and the methods entered,
    both oldest first. *)
Record state := State {
  disk : fs;
  iconName : option string;
  printed : list string;
  spawned : list (list string);
  entered : list stage
}.

Module IconHandler.

(** A method body: runs on a state, returns a value or raises, and leaves
    the state as modified up to that point. *)
Definition M (A : Type) : Type := state -> outcome A * state.

Definition ret {A} (a : A) : M A := fun s => (Return a, s).
Definition raise {A} (e : exn) : M A := fun s => (Raise e, s).
Definition bind {A B} (m : M A) (k : A -> M B) : M B :=
  fun s => match m s with
           | (Return a, s') => k a s'
           | (Raise e, s') => (Raise e, s')
           end.

#[global] Instance M_ret : MRet M := @ret.
#[global] Instance M_bind : MBind M := fun A B k m => bind m k.

(** [try: m  except cs: h] *)
Definition try_except {A} (m : M A) (cs : list exn_class) (h : exn -> M A) : M A :=
  fun s => match m s with
           | (Return a, s') => (Return a, s')
           | (Raise e, s') => if isinstance e cs then h e s' else (Raise e, s')
           end.

Definition with_disk (d : fs) (s : state) : state :=
  State d (iconName s) (printed s) (spawned s) (entered s).
Definition with_iconName (n : string) (s : state) : state :=
  State (disk s) (Some n) (printed s) (spawned s) (entered s).
Definition add_printed (lines : list string) (s : state) : state :=
  State (disk s) (iconName s) (printed s ++ lines) (spawned s) (entered s).
Definition add_spawned (argv : list string) (s : state) : state :=
  State (disk s) (iconName s) (printed s) (spawned s ++ [argv]) (entered s).
Definition add_entered (g : stage) (s : state) : state :=
  State (disk s) (iconName s) (printed s) (spawned s) (entered s ++ [g]).

Definition get_disk : M fs := fun s => (Return (disk s), s).
Definition set_disk (d : fs) : M unit := fun s => (Return tt, with_disk d s).
Definition get_iconName : M string :=
  fun s => match iconName s with
           | Some n => (Return n, s)
           | None => (Raise (Exn AttributeError "'IconHandler' object has no attribute 'iconName'"), s)
           end.
Definition set_iconName (n : string) : M unit := fun s => (Return tt, with_iconName n s).
Definition print (line : string) : M unit := fun s => (Return tt, add_printed [line] s).
Definition spawn (argv : list string) : M unit := fun s => (Return tt, add_spawned argv s).
Definition enter (g : stage) : M unit := fun s => (Return tt, add_entered g s).

(** a library call that returns or raises *)
Definition lift {A} (r : exn + A) : M A :=
  match r with
  | inl e => raise e
  | inr a => ret a
  end.

Definition dquote : string := String (ascii_of_nat 34) EmptyString.
Definition newline : string := String (ascii_of_nat 10) EmptyString.

(** The argument of [validatePath] is a string in [validateData] and
    [compileIcon], the [Path] object built from a string in
    [resignAppForLocalUse]. *)
Inductive pathlike :=
| StrPath (s : string)
| PurePath (s : string).

Section Methods.
Variable E : env.
Variable self : cfg.

(** [os.listdir] of one of the top-level places *)
Definition listdir (p : option node) : M (list string) :=
  names ← lift (FS.names p); mret (listing E names).

Definition logMessage (simpleMessage verboseMessage : string) : M unit :=
  (* [if self.logMessage:] tests a bound method, which is always true *)
  print simpleMessage;;
  if verboseErrors self && negb (String.eqb verboseMessage "")
  then print ("    " +:+ verboseMessage)
  else mret tt.

(** the lines one call of [logMessage] prints *)
Definition logLines (simpleMessage verboseMessage : string) : list string :=
  simpleMessage ::
  (if verboseErrors self && negb (String.eqb verboseMessage "")
   then ["    " +:+ verboseMessage] else []).

Definition clearScreen : M unit :=
  spawn ["clear"];;
  _ ← lift (run_clear E); mret tt.

(** the string an f-string or [str()] shows for the argument *)
Definition fspath (p : pathlike) : string :=
  match p with
  | StrPath s => s
  | PurePath s => pathlib_str E s
  end.

(** the string the path object is built from *)
Definition raw (p : pathlike) : string :=
  match p with StrPath s | PurePath s => s end.

Definition resolve (p : pathlike) : M unit :=
  match path_resolve E (raw p) with
  | Some e => raise e
  | None => mret tt
  end.

(** the classes the [except] clause of [validatePath] names *)
Definition caught (e : exn) : bool :=
  isinstance e [OSError; RuntimeError; ValueError].

Definition validatePath (filePath : pathlike) : M bool :=
  try_except
    (resolve filePath;; mret true)
    [OSError; RuntimeError; ValueError]
    (fun e =>
       logMessage ("Error finding the path " +:+ fspath filePath)
                  ("The error was: " +:+ exn_text e);;
       mret false).

Definition validateData (appBundlePath' : string) : M unit :=
  enter ValidateData;;
  let appBundlePath' :=
    if String.eqb appBundlePath' "" then appBundlePath self else appBundlePath' in
  clearScreen;;
  spawn ["actool"];;
  actoolsCMD ← lift (run_actool_bare E);
  (if String.eqb (proc_stderr actoolsCMD)
        "Error: No arguments specified, please consult `man actool` in Terminal."
   then logMessage "Please install Xcode command line tools"
          ("Error finding " +:+ dquote +:+ "actool" +:+ dquote +:+
           " please ensure Xcode is fully installed. It may need a re-install.")
   else logMessage "Xcode CLI Tools installed already." "Actool has been located.");;
  _ ← validatePath (StrPath (appBundlePath' +:+ "/Contents"));
  mret tt.

(** what [os.listdir] returns for a directory with entries [d] *)
Definition listingOf (d : gmap string node) : list string :=
  listing E (map_to_list d).*1.

(** The loop of lines 131-140 over the listing [files], on the entries
    [d] of [./OutputDir]: the exception that ended it, if any, and the
    entries it leaves. *)
Fixpoint renameLoop (files : list string) (d : gmap string node)
    : option exn * gmap string node :=
  match files with
  | [] => (None, d)
  | file :: rest =>
      let '(name, ext) := PyStr.splitext file in
      let new_name := "AppIcon" +:+ ext in
      if negb (String.eqb ext ".car") then
        match FS.rename d file new_name with
        | inl e => (Some e, d)
        | inr d' => renameLoop rest d'
        end
      else renameLoop rest d
  end.

(** the [ext] of the loop body, and the name the body leaves a listed
    file under *)
Definition extension (file : string) : string := (PyStr.splitext file).2.
Definition renamed (file : string) : string :=
  if String.eqb (extension file) ".car" then file
  else "AppIcon" +:+ extension file.

(** [files] lists, each name once, regular files of a directory that
    holds nothing but regular files *)
Definition regular_listing (files : list string) (d : gmap string node) : Prop :=
  NoDup files /\
  (forall f, f ∈ files -> exists x, d !! f = Some (File x)) /\
  (forall k n, d !! k = Some n -> FS.is_file n = true).

(** leave a loop: re-raise what ended it *)
Definition finish (r : option exn) : M unit :=
  match r with
  | Some e => raise e
  | None => mret tt
  end.

Definition actoolArgs (iconPath name : string) : list string :=
  [ "actool"; iconPath; "--compile"; "./OutputDir"; "--app-icon"; name;
    "--platform"; "macosx";
    "--output-partial-info-plist"; "assetcatalog_generated_info.plist";
    "--minimum-deployment-target"; "26.0";
    "--enable-on-demand-resources"; "NO"; "--include-all-app-icons" ].

(** [iconPath.split("/")[-1].split(".")[0]] *)
Definition deriveIconName (iconPath : string) : option string :=
  base ← PyStr.item_last (PyStr.split "/" iconPath);
  PyStr.item_first (PyStr.split "." base).

Definition compileIcon (iconPath : string) : M unit :=
  enter CompileIcon;;
  try_except
    (fs0 ← get_disk;
     o ← lift (FS.rmtree (outputDir fs0));
     set_disk (Fs o (infoPlist fs0) (resources fs0) (codeSignature fs0)))
    [FileNotFoundError]
    (fun _ => mret tt);;
  fs1 ← get_disk;
  (match outputDir fs1 with
   | Some _ => raise (Exn FileExistsError "File exists")
   | None => set_disk (Fs (Some (Dir ∅)) (infoPlist fs1) (resources fs1) (codeSignature fs1))
   end);;
  valid ← validatePath (StrPath iconPath);
  if negb valid then mret tt
  else
    name ← (match deriveIconName iconPath with
            | Some n => mret n
            | None => raise (Exn IndexError "list index out of range")
            end);
    set_iconName name;;
    spawn (actoolArgs iconPath name);;
    fs2 ← get_disk;
    actoolResponse ←
      (match outputDir fs2 with
       | Some (Dir d) =>
           '(r, d') ← lift (run_actool E (actoolArgs iconPath name) d);
           set_disk (Fs (Some (Dir d')) (infoPlist fs2) (resources fs2) (codeSignature fs2));;
           mret r
       | _ =>
           '(r, _) ← lift (run_actool E (actoolArgs iconPath name) ∅);
           mret r
       end);
    logMessage "Icon compiled in ./OutputDir"
      ("stdout: " +:+ proc_stdout actoolResponse +:+ newline +:+ newline +:+
       "stderr: " +:+ proc_stderr actoolResponse);;
    fs3 ← get_disk;
    files ← listdir (outputDir fs3);
    match outputDir fs3 with
    | Some (Dir d) =>
        let '(r, d') := renameLoop files d in
        set_disk (Fs (Some (Dir d')) (infoPlist fs3) (resources fs3) (codeSignature fs3));;
        finish r
    | _ => mret tt
    end.

(** [plistData[key] = value] *)
Definition setitem (plistData : plist) (key : string) (value : plist) : M plist :=
  match plistData with
  | PDict entries => mret (PDict (<[key := value]> entries))
  | PArray _ => raise (Exn TypeError "list indices must be integers or slices, not str")
  | _ => raise (Exn TypeError "object does not support item assignment")
  end.

(** The one path [__init__] passes is the bundle's [Contents/Info.plist],
    the file the [infoPlist] field stands for.  The right-hand side
    [self.iconName] is evaluated before the item assignment; the file is
    opened for writing, and so emptied, only after both assignments, and
    the serializer runs on the open file. *)
Definition updateInfoPlist (infoPlistPath fallbackIconFile : string) : M unit :=
  enter UpdateInfoPlist;;
  fs0 ← get_disk;
  plistData ← (match infoPlist fs0 with
               | None => raise (Exn FileNotFoundError "No such file or directory")
               | Some (Unparseable e) => raise e
               | Some (Parsed root) => mret root
               end);
  name ← get_iconName;
  plistData ← setitem plistData "CFBundleIconName" (PStr name);
  plistData ← (if negb (String.eqb fallbackIconFile "")
               then setitem plistData "CFBundleIconFile" (PStr fallbackIconFile)
               else mret plistData);
  fs1 ← get_disk;
  match plist_dump E plistData with
  | CutShort e unreadable =>
      set_disk (Fs (outputDir fs1) (Some (Unparseable unreadable))
                   (resources fs1) (codeSignature fs1));;
      raise e
  | Whole f =>
      set_disk (Fs (outputDir fs1) (Some f) (resources fs1) (codeSignature fs1))
  end.

(** lines 167-172, on the entries [rs] of [Contents/Resources] *)
Fixpoint backupLoop (allOldFiles : list string) (rs : gmap string node)
    : option exn * gmap string node :=
  match allOldFiles with
  | [] => (None, rs)
  | f :: rest =>
      if negb (PyStr.contains "oldFiles" f) then
        match FS.move_into_backup rs f with
        | inl e => (Some e, rs)
        | inr rs' => backupLoop rest rs'
        end
      else backupLoop rest rs
  end.

(** lines 175-176: from the entries [od] of [./OutputDir] into [rs] *)
Fixpoint installLoop (allFiles : list string) (od rs : gmap string node)
    : option exn * (gmap string node * gmap string node) :=
  match allFiles with
  | [] => (None, (od, rs))
  | f :: rest =>
      match FS.move od f rs f with
      | inl e => (Some e, (od, rs))
      | inr (od', rs') => installLoop rest od' rs'
      end
  end.

Definition set_resources (r : option node) : M unit :=
  fs0 ← get_disk;
  set_disk (Fs (outputDir fs0) (infoPlist fs0) r (codeSignature fs0)).

(** lines 162-166: [os.mkdir] of the backup directory, a
    [FileExistsError] passed over *)
Definition ensureBackupDir (rs : gmap string node) : M (gmap string node) :=
  try_except (lift (FS.mkdir rs "oldFiles")) [FileExistsError] (fun _ => mret rs).

(** what the backup directory holds before the stage: nothing when it does
    not exist yet *)
Definition backupOf (rs : gmap string node) : gmap string node :=
  match rs !! "oldFiles" with
  | Some (Dir b) => b
  | _ => ∅
  end.

(** the entries of [Contents/Resources] once lines 162-166 have run *)
Definition withBackupDir (rs : gmap string node) : gmap string node :=
  match rs !! "oldFiles" with
  | None => <["oldFiles" := Dir ∅]> rs
  | Some _ => rs
  end.

(** The bundle is the one the disk models, whichever of the argument and
    [self.appBundlePath] names it.  The listing of Resources is taken
    before the backup directory is created. *)
Definition moveIconToApp (appBundlePath' : string) : M unit :=
  enter MoveIconToApp;;
  fs0 ← get_disk;
  allOldFiles ← listdir (resources fs0);
  match resources fs0 with
  | Some (Dir rs) =>
      rs1 ← ensureBackupDir rs;
      let '(r, rs2) := backupLoop allOldFiles rs1 in
      set_resources (Some (Dir rs2));;
      finish r;;
      fs1 ← get_disk;
      allFiles ← listdir (outputDir fs1);
      match outputDir fs1 with
      | Some (Dir od) =>
          let '(r, (od', rs3)) := installLoop allFiles od rs2 in
          set_disk (Fs (Some (Dir od')) (infoPlist fs1) (Some (Dir rs3)) (codeSignature fs1));;
          finish r
      | _ => mret tt
      end
  | _ => mret tt
  end.

(** truth value of what [shutil.which] returned *)
Definition found (w : option string) : option string :=
  match w with
  | Some p => if String.eqb p "" then None else Some p
  | None => None
  end.

Definition resignAppForLocalUse (appBundlePath' identity : string) : M bool :=
  enter ResignAppForLocalUse;;
  let appBundlePath' :=
    if String.eqb appBundlePath' "" then appBundlePath self else appBundlePath' in
  let bundlePath := PurePath appBundlePath' in
  valid ← validatePath bundlePath;
  if negb valid then mret false
  else
    match found (which E "codesign") with
    | None =>
        logMessage "codesign not found. Please install Xcode Command Line Tools."
                   "Install Xcode or run `xcode-select --install`.";;
        mret false
    | Some codesignPath =>
        fs0 ← get_disk;
        (match codeSignature fs0 with
         | Some (Dir _) =>
             set_disk (Fs (outputDir fs0) (infoPlist fs0) (resources fs0) None)
         | _ => mret tt     (* absent, or [ignore_errors=True] *)
         end);;
        (match found (which E "xattr") with
         | Some xattrPath =>
             spawn [xattrPath; "-cr"; fspath bundlePath];;
             _ ← lift (run_xattr E [xattrPath; "-cr"; fspath bundlePath]);
             mret tt
         | None => mret tt
         end);;
        let cmd := [codesignPath; "--force"; "--deep"; "--sign"; identity;
                    fspath bundlePath] in
        spawn cmd;;
        fs1 ← get_disk;
        '(result, sig) ← lift (run_codesign E cmd fs1);
        set_disk (Fs (outputDir fs1) (infoPlist fs1) (resources fs1) sig);;
        if negb (Z.eqb (returncode result) 0) then
          logMessage "Failed to re-sign the application."
            ("stdout: " +:+ proc_stdout result +:+ newline +:+ newline +:+
             "stderr: " +:+ proc_stderr result);;
          mret false
        else
          logMessage "App re-signed for local use."
            ("stdout: " +:+ proc_stdout result +:+ newline +:+ newline +:+
             "stderr: " +:+ proc_stderr result);;
          mret true
    end.

(** [IconHandler.__init__] *)
Definition init : M unit :=
  validateData "";;
  compileIcon (iconBundlePath self);;
  updateInfoPlist (appBundlePath self +:+ "/Contents/Info.plist") "";;
  moveIconToApp "";;
  _ ← resignAppForLocalUse "" "-";
  mret tt.

(** [IconHandler(appBundlePath, iconBundlePath)] on disk [d]: a new
    instance has no [iconName] attribute. *)
Definition fresh (d : fs) : state := State d None [] [] [].
Definition run (d : fs) : outcome unit * state := init (fresh d).

(** A run that started on disk [d] ended in an exception, with the
    bundle as it was and neither [moveIconToApp] nor
    [resignAppForLocalUse] entered. *)
Definition halted_before_relocation (d : fs) (o : outcome unit) (s' : state) : Prop :=
  (exists e, o = Raise e) /\
  infoPlist (disk s') = infoPlist d /\
  resources (disk s') = resources d /\
  codeSignature (disk s') = codeSignature d /\
  (MoveIconToApp ∉ entered s') /\
  (ResignAppForLocalUse ∉ entered s').

End Methods.

End IconHandler.

Import IconHandler.

(** ** The serializer *)

(** [plistlib.dump] as backend.py calls it writes XML with sorted keys,
    whatever format the file was read in.  Its writer puts out the header
    and then the value piece by piece: it raises [OverflowError] at an
    integer outside -2^63 .. 2^64-1 and [ValueError] at a string or key
    holding a control character other than tab, LF and CR, and it writes
    CR LF and CR as LF.  What it has written by then stays in the file,
    which the XML parser refuses for its missing end.

    This is the serializer on values whose text has code points below
    256 and whose reals and dates are in the text the writer itself
    produces. *)
Module Plistlib.

Definition in_range (z : Z) : bool :=
  (Z.leb (- 2 ^ 63) z && Z.ltb z (2 ^ 64))%Z.

(** the characters of [_controlCharPat] *)
Definition control (c : ascii) : bool :=
  let n := nat_of_ascii c in
  ((n <? 32) && negb ((n =? 9) || (n =? 10) || (n =? 13)))%nat.

Fixpoint has_control (s : string) : bool :=
  match s with
  | EmptyString => false
  | String c s' => control c || has_control s'
  end.

Definition controlCharacters : exn :=
  Exn ValueError "strings can't contain control characters; use bytes instead".

Definition text_fault (s : string) : option exn :=
  if has_control s then Some controlCharacters else None.

Definition CR : ascii := ascii_of_nat 13.
Definition LF : ascii := ascii_of_nat 10.

(** the line ends [_escape] writes *)
Fixpoint newlines (s : string) : string :=
  match s with
  | EmptyString => EmptyString
  | String c s' =>
      if Ascii.eqb c CR then
        String LF
          match s' with
          | String c' s'' => if Ascii.eqb c' LF then newlines s'' else newlines s'
          | EmptyString => EmptyString
          end
      else String c (newlines s')
  end.

(** the fault the writer meets first in an array *)
Definition first_fault (l : list (option exn)) : option exn :=
  foldr (fun x acc => match x with Some e => Some e | None => acc end) None l.

(** the fault the writer meets first in a dictionary: it goes through the
    keys in sorted order and writes each key before its value *)
Definition first_by_key (l : list (string * option exn)) : option exn :=
  snd <$>
  foldr (fun kv acc =>
           match (match text_fault kv.1 with Some e => Some e | None => kv.2 end) with
           | None => acc
           | Some e =>
               match acc with
               | Some (k', _) => if String.ltb kv.1 k' then Some (kv.1, e) else acc
               | None => Some (kv.1, e)
               end
           end) None l.

(** the exception [write_value] raises on a value, if any *)
Fixpoint fault (v : plist) : option exn :=
  match v with
  | PStr s => text_fault s
  | PInt z => if in_range z then None else Some (Exn OverflowError (pretty z))
  | PReal _ | PBool _ | PData _ | PDate _ => None
  | PArray items => first_fault (map fault items)
  | PDict entries => first_by_key (map_to_list (fmap fault entries))
  end.

(** the dictionary the parser builds: keys go through [_escape] like
    strings, and of the entries whose keys are written as the same text
    the last in sorted order is the one kept *)
Definition rekey (entries : gmap string plist) : gmap string plist :=
  snd <$>
  map_fold (fun k v (acc : gmap string (string * plist)) =>
              match acc !! newlines k with
              | Some (k0, _) =>
                  if String.ltb k0 k then <[newlines k := (k, v)]> acc else acc
              | None => <[newlines k := (k, v)]> acc
              end) ∅ entries.

(** what [plistlib.load] reads from the XML written for a value *)
Fixpoint readback (v : plist) : plist :=
  match v with
  | PStr s => PStr (newlines s)
  | PArray items => PArray (map readback items)
  | PDict entries => PDict (rekey (fmap readback entries))
  | _ => v
  end.

(** the parser on a file that ends before its closing tag; its message
    goes on with the position *)
Definition noElementFound : exn := Exn ExpatError "no element found".

Definition dump (v : plist) : written :=
  match fault v with
  | Some e => CutShort e noElementFound
  | None => Whole (Parsed (readback v))
  end.

End Plistlib.

(** ** A concrete run: icons/Rocket.icon into MyApp.app *)

Module Scenario.

Definition tools : env := {|
  plist_dump := Plistlib.dump;
  path_resolve := fun _ => None;
  pathlib_str := fun p => p;
  listing := fun l => l;
  which := fun t => Some ("/usr/bin/" +:+ t);
  run_clear := inr (Completed 0 "" "");
  run_actool_bare := inr (Completed 1 "" "usage");
  run_actool := fun _ d =>
    inr (Completed 0 "" "",
         <["Assets.car" := File "car"]> (<["Rocket.icns" := File "icns"]> d));
  run_xattr := fun _ => inr (Completed 0 "" "");
  run_codesign := fun _ _ => inr (Completed 0 "" "", Some (Dir (<["CodeResources" := File "sig"]> ∅)))
|}.

Definition args : cfg := Cfg "MyApp.app" "icons/Rocket.icon" true false.

Definition disk0 : fs := {|
  outputDir := None;
  infoPlist := Some (Parsed (PDict (<["CFBundleName" := PStr "MyApp"]> ∅)));
  resources := Some (Dir (<["old.icns" := File "old"]> ∅));
  codeSignature := Some (Dir ∅)
|}.

Definition start : state := State disk0 None [] [] [].

(** the icon path cannot be resolved *)
Definition loopError : exn := Exn RuntimeError "Symlink loop from 'icons/Rocket.icon'".

Definition toolsIconUnresolvable : env := {|
  plist_dump := plist_dump tools;
  path_resolve := fun p => if String.eqb p "icons/Rocket.icon" then Some loopError else None;
  pathlib_str := pathlib_str tools;
  listing := listing tools;
  which := which tools;
  run_clear := run_clear tools;
  run_actool_bare := run_actool_bare tools;
  run_actool := run_actool tools;
  run_xattr := run_xattr tools;
  run_codesign := run_codesign tools
|}.

(** [codesign] is not installed *)
Definition toolsNoCodesign : env := {|
  plist_dump := plist_dump tools;
  path_resolve := path_resolve tools;
  pathlib_str := pathlib_str tools;
  listing := listing tools;
  which := fun t => if String.eqb t "codesign" then None else which tools t;
  run_clear := run_clear tools;
  run_actool_bare := run_actool_bare tools;
  run_actool := run_actool tools;
  run_xattr := run_xattr tools;
  run_codesign := run_codesign tools
|}.

(** [actool] writes two images of the same extension *)
Definition toolsTwoImages : env := {|
  plist_dump := plist_dump tools;
  path_resolve := path_resolve tools;
  pathlib_str := pathlib_str tools;
  listing := listing tools;
  which := which tools;
  run_clear := run_clear tools;
  run_actool_bare := run_actool_bare tools;
  run_actool := fun _ d =>
    inr (Completed 0 "" "",
         <["Assets.car" := File "car"]>
           (<["Rocket.png" := File "small"]> (<["Rocket@2x.png" := File "large"]> d)));
  run_xattr := run_xattr tools;
  run_codesign := run_codesign tools
|}.

(** a resource whose name merely contains the backup directory's name,
    and compiled artifacts waiting in [./OutputDir] *)
Definition diskSimilarName : fs := {|
  outputDir := Some (Dir (<["Assets.car" := File "car"]> (<["AppIcon.icns" := File "icns"]> ∅)));
  infoPlist := infoPlist disk0;
  resources := Some (Dir (<["old.icns" := File "old"]>
                            (<["oldFiles_v1.icns" := File "kept"]> ∅)));
  codeSignature := codeSignature disk0
|}.

(** the bundle's Info.plist is not a property list *)
Definition invalidFile : exn := Exn InvalidFileException "Invalid file".

Definition diskBadPlist : fs := {|
  outputDir := outputDir disk0;
  infoPlist := Some (Unparseable invalidFile);
  resources := resources disk0;
  codeSignature := codeSignature disk0
|}.

End Scenario.

(** ** Notions used in the statements *)

(** the dictionary [updateInfoPlist] hands to the serializer: the one it
    loaded with the assignments of lines 150-152 *)
Definition edited (fallbackIconFile name : string) (m : gmap string plist)
    : gmap string plist :=
  if negb (String.eqb fallbackIconFile "")
  then <["CFBundleIconFile" := PStr fallbackIconFile]> (<["CFBundleIconName" := PStr name]> m)
  else <["CFBundleIconName" := PStr name]> m.

(** the disk [codesign] is started on: lines 205-207 have removed a
    signature directory *)
Definition withoutSignature (d : fs) : fs :=
  match codeSignature d with
  | Some (Dir _) => Fs (outputDir d) (infoPlist d) (resources d) None
  | _ => d
  end.

(** the command line of line 214 *)
Definition codesignArgs (E : env) (codesignPath bundle identity : string) : list string :=
  [codesignPath; "--force"; "--deep"; "--sign"; identity; pathlib_str E bundle].

(** a resource can go into the backup: nothing of its name is there, or
    both it and what is there are regular files *)
Definition backs_up_cleanly (rs b : gmap string node) (f : string) : Prop :=
  b !! f = None \/
  (exists x y, rs !! f = Some (File x) /\ b !! f = Some (File y)).

(** what the renaming loop leaves of the regular files [actool] wrote *)
Definition artifacts (E : env) (produced : gmap string node) : gmap string node :=
  (renameLoop (listingOf E produced) produced).2.

(** the bundle and scratch directory a complete run leaves, up to the
    signature *)
Definition installed (E : env) (d : fs) (f : plistFile) (rs : gmap string node)
    (produced : gmap string node) : fs :=
  Fs (Some (Dir ∅))
     (Some f)
     (Some (Dir (<["oldFiles" := Dir (delete "oldFiles" rs ∪ backupOf rs)]>
                   (artifacts E produced))))
     (codeSignature d).


(** ** The drop box of [gui.py] *)

Module Gui.

(** Characters are the code points below 256.  [str.lower] maps A-Z and
    the upper-case letters of Latin-1 (U+00C0 to U+00DE, the sign U+00D7
    apart) 32 places up and leaves the rest. *)
Definition lower_char (c : ascii) : ascii :=
  let n := nat_of_ascii c in
  if ((65 <=? n) && (n <=? 90))%nat then ascii_of_nat (n + 32)
  else if ((192 <=? n) && (n <=? 222) && negb (n =? 215))%nat then ascii_of_nat (n + 32)
  else c.

Fixpoint lower (s : string) : string :=
  match s with
  | EmptyString => EmptyString
  | String c s' => String (lower_char c) (lower s')
  end.

(** [str.isspace] on one character: U+0009 to U+000D, U+001C to U+0020,
    U+0085 and U+00A0 *)
Definition isspace (c : ascii) : bool :=
  let n := nat_of_ascii c in
  (((9 <=? n) && (n <=? 13)) || ((28 <=? n) && (n <=? 32)) ||
   (n =? 133) || (n =? 160))%nat.

Fixpoint lstrip (s : string) : string :=
  match s with
  | EmptyString => EmptyString
  | String c s' => if isspace c then lstrip s' else s
  end.

Fixpoint rstrip (s : string) : string :=
  match s with
  | EmptyString => EmptyString
  | String c s' =>
      match rstrip s' with
      | EmptyString => if isspace c then EmptyString else String c EmptyString
      | r => String c r
      end
  end.

(** [s.strip()] *)
Definition strip (s : string) : string := rstrip (lstrip s).

(** [s.replace(c, "")] for a one-character [c] *)
Fixpoint remove_char (c : ascii) (s : string) : string :=
  match s with
  | EmptyString => EmptyString
  | String a s' => if Ascii.eqb a c then remove_char c s' else String a (remove_char c s')
  end.

(** [s[-4:]] *)
Definition last4 (s : string) : string := PyStr.drop (String.length s - 4) s.

(** [os.path.basename] on POSIX *)
Definition basename (p : string) : string :=
  match PyStr.rfind "/" p with
  | Some i => PyStr.drop (S i) p
  | None => p
  end.

(** what the box needs of a [QUrl] *)
Record url := Url { isLocalFile : bool; toLocalFile : string }.

(** [FileDropBox]: its attributes, the text of its label, and the
    [fileSelected] signals emitted so far, oldest first *)
Record box := Box {
  dialogCaption : string;
  fileFilter : string;
  path_ : string;
  fileExtenstion : string;
  labelText : string;
  emitted : list (string * string)
}.

Definition browseText : string := "Drop a file here" +:+ newline +:+ "or click to browse".

(** [FileDropBox.__init__] *)
Definition new (dialogCaption' fileFilter' fileExtenstion' : string) : box :=
  Box dialogCaption' fileFilter' "" (lower fileExtenstion')
      ("Drop an app file here" +:+ newline +:+ "or click to browse") [].

Section Events.
(** [os.path.exists] *)
Variable path_exists : string -> bool.

(** the test of line 42 *)
Definition suffix_matches (b : box) (path : string) : bool :=
  String.eqb (lower (last4 (remove_char "/" path))) (fileExtenstion b).

Definition setPath (path : string) (b : box) : box :=
  let path := strip path in
  if String.eqb path "" || negb (path_exists path) then b
  else if negb (suffix_matches b path) then b
  else Box (dialogCaption b) (fileFilter b) path (fileExtenstion b)
           (basename path) (emitted b ++ [(path, fileExtenstion b)]).

Definition path (b : box) : string := path_ b.

Definition with_label (text : string) (b : box) : box :=
  Box (dialogCaption b) (fileFilter b) (path_ b) (fileExtenstion b) text (emitted b).

(** the events return the box and whether the event was accepted *)
Definition dragEnterEvent (hasUrls : bool) (urls : list url) (b : box) : box * bool :=
  if hasUrls && existsb isLocalFile urls
  then (with_label "Drop it like its hot" b, true)
  else (b, false).

Definition dragLeaveEvent (b : box) : box := with_label browseText b.

(** the loop of lines 73-76: the first local file, then [break] *)
Fixpoint firstLocal (urls : list url) : option string :=
  match urls with
  | [] => None
  | u :: rest => if isLocalFile u then Some (toLocalFile u) else firstLocal rest
  end.

Definition dropEvent (urls : list url) (b : box) : box * bool :=
  match urls with
  | [] => (b, false)
  | _ =>
      let b1 := match firstLocal urls with
                | Some f => setPath f b
                | None => b
                end in
      (with_label (if String.eqb (path_ b1) "" then browseText else basename (path_ b1)) b1,
       true)
  end.

(** [file_path] is what the file dialog returned, the empty string when it
    was cancelled *)
Definition mousePressEvent (leftButton : bool) (file_path : string) (b : box) : box :=
  if leftButton then
    if negb (String.eqb file_path "") then setPath file_path b else b
  else b.

Inductive event :=
| SetPath (p : string)
| DragEnter (hasUrls : bool) (urls : list url)
| DragLeave
| Drop (urls : list url)
| MousePress (leftButton : bool) (file_path : string).

Definition handle (b : box) (ev : event) : box :=
  match ev with
  | SetPath p => setPath p b
  | DragEnter h urls => (dragEnterEvent h urls b).1
  | DragLeave => dragLeaveEvent b
  | Drop urls => (dropEvent urls b).1
  | MousePress l f => mousePressEvent l f b
  end.

(** the box after a sequence of events *)
Definition after (evs : list event) (b : box) : box := foldl handle b evs.

(** every signal carries the box's extension and a path that passed the
    test, and the stored path is the one of the last signal *)
Definition selection_consistent (b : box) : Prop :=
  (forall p e, (p, e) ∈ emitted b ->
     e = fileExtenstion b /\ suffix_matches b p = true /\ p <> "") /\
  match last (emitted b) with
  | Some (p, _) => path_ b = p
  | None => path_ b = ""
  end.

End Events.

End Gui.

(** ** Further concrete cases *)

Module Cases.
Import Scenario.

(** [actool] is not on the search path *)
Definition actoolMissing : exn :=
  Exn FileNotFoundError "[Errno 2] No such file or directory: 'actool'".

Definition toolsNoActool : env := {|
  plist_dump := plist_dump tools;
  path_resolve := path_resolve tools;
  pathlib_str := pathlib_str tools;
  listing := listing tools;
  which := which tools;
  run_clear := run_clear tools;
  run_actool_bare := inl actoolMissing;
  run_actool := run_actool tools;
  run_xattr := run_xattr tools;
  run_codesign := run_codesign tools
|}.

(** the bundle's [Contents] cannot be resolved *)
Definition nameTooLong : exn := Exn OSError "[Errno 63] File name too long".

Definition toolsBundleUnresolvable : env := {|
  plist_dump := plist_dump tools;
  path_resolve := fun p => if String.eqb p "MyApp.app/Contents" then Some nameTooLong else None;
  pathlib_str := pathlib_str tools;
  listing := listing tools;
  which := which tools;
  run_clear := run_clear tools;
  run_actool_bare := run_actool_bare tools;
  run_actool := run_actool tools;
  run_xattr := run_xattr tools;
  run_codesign := run_codesign tools
|}.

(** the bundle itself cannot be resolved *)
Definition toolsAppUnresolvable : env := {|
  plist_dump := plist_dump tools;
  path_resolve := fun p => if String.eqb p "MyApp.app" then Some nameTooLong else None;
  pathlib_str := pathlib_str tools;
  listing := listing tools;
  which := which tools;
  run_clear := run_clear tools;
  run_actool_bare := run_actool_bare tools;
  run_actool := run_actool tools;
  run_xattr := run_xattr tools;
  run_codesign := run_codesign tools
|}.

(** [actool] exits with status 1 and writes nothing *)
Definition actoolFailure : completed := Completed 1 "" "error: not an icon".

Definition toolsActoolFails : env := {|
  plist_dump := plist_dump tools;
  path_resolve := path_resolve tools;
  pathlib_str := pathlib_str tools;
  listing := listing tools;
  which := which tools;
  run_clear := run_clear tools;
  run_actool_bare := run_actool_bare tools;
  run_actool := fun _ d => inr (actoolFailure, d);
  run_xattr := run_xattr tools;
  run_codesign := run_codesign tools
|}.

(** [codesign] exits with status 1 and writes no signature *)
Definition codesignFailure : completed := Completed 1 "" "errSecInternalComponent".

Definition toolsCodesignFails : env := {|
  plist_dump := plist_dump tools;
  path_resolve := path_resolve tools;
  pathlib_str := pathlib_str tools;
  listing := listing tools;
  which := which tools;
  run_clear := run_clear tools;
  run_actool_bare := run_actool_bare tools;
  run_actool := run_actool tools;
  run_xattr := run_xattr tools;
  run_codesign := fun _ _ => inr (codesignFailure, None)
|}.

Definition rocketFiles : gmap string node :=
  <["Assets.car" := File "car"]> (<["Rocket.icns" := File "icns"]> ∅).

Definition oldResources : gmap string node := <["old.icns" := File "old"]> ∅.

(** [./OutputDir] is a regular file *)
Definition diskOutputFile : fs :=
  Fs (Some (File "x")) (infoPlist disk0) (resources disk0) (codeSignature disk0).

(** the bundle has no resource directory *)
Definition diskNoResources : fs :=
  Fs (outputDir diskSimilarName) (infoPlist disk0) None (codeSignature disk0).

(** nothing was compiled *)
Definition diskNoOutput : fs :=
  Fs None (infoPlist disk0) (resources disk0) (codeSignature disk0).

(** a second run: the backup already holds an [old.icns] *)
Definition secondResources : gmap string node :=
  <["old.icns" := File "newer"]> (<["oldFiles" := Dir oldResources]> ∅).

Definition secondArtifacts : gmap string node := <["AppIcon.icns" := File "icns"]> ∅.

Definition diskSecondRun : fs :=
  Fs (Some (Dir secondArtifacts)) (infoPlist disk0) (Some (Dir secondResources))
     (codeSignature disk0).

(** the metadata file holds an array *)
Definition diskArrayPlist : fs :=
  Fs (outputDir disk0) (Some (Parsed (PArray []))) (resources disk0) (codeSignature disk0).

(** the two boxes one would build for the two inputs of the pipeline *)
Definition appBox : Gui.box :=
  Gui.new "Pick an app bundle" "App Bundle (*.app);;All Files (*)" ".app".

Definition everything_exists (p : string) : bool := true.

(** the metadata file holds an integer that does not fit 64 bits *)
Definition diskBigInteger : fs :=
  Fs (outputDir disk0)
     (Some (Parsed (PDict (<["CFBundleName" := PStr "MyApp"]>
                            (<["BuildNumber" := PInt (2 ^ 64)]> ∅)))))
     (resources disk0) (codeSignature disk0).

(** an icon bundle whose name holds a carriage return, and the name with a
    line feed in its place *)
Definition returnInName : string := "Ro" +:+ String Plistlib.CR "cket".
Definition lineFeedInName : string := "Ro" +:+ String Plistlib.LF "cket".

Definition argsReturnInName : cfg :=
  Cfg "MyApp.app" ("icons/" +:+ returnInName +:+ ".icon") true false.

End Cases.


(** * Properties *)

(** ** Strings and paths *)

Example split_path : PyStr.split "/" "icons/Rocket.icon" = ["icons"; "Rocket.icon"].
Proof. reflexivity. Qed.

Example splitext_archive : PyStr.splitext "Assets.car" = ("Assets", ".car").
Proof. reflexivity. Qed.

Example splitext_leading_dot : PyStr.splitext ".hidden" = (".hidden", "").
Proof. reflexivity. Qed.

Example splitext_last_dot : PyStr.splitext "a.tar.gz" = ("a.tar", ".gz").
Proof. reflexivity. Qed.

Example splitext_dot_in_directory : PyStr.splitext "x.d/name" = ("x.d/name", "").
Proof. reflexivity. Qed.

Example contains_substring : PyStr.contains "oldFiles" "MyoldFiles.icns" = true.
Proof. reflexivity. Qed.

Section PyStrFacts.
Import PyStr.

Lemma split_nonempty sep s : split sep s <> [].
Proof.
  destruct s as [|c s]; simpl; [done|].
  destruct (Ascii.eqb c sep); [done|].
  destruct (split sep s); done.
Qed.

(** a string without the separator is a single field *)
Lemma split_no_sep sep s :
  rfind sep s = None -> split sep s = [s].
Proof.
  induction s as [|c s IH]; simpl; [done|].
  destruct (rfind sep s) eqn:Hr; [done|].
  destruct (Ascii.eqb c sep); [done|].
  intros _. by rewrite IH.
Qed.

(** the last field of [pre ++ sep ++ base] is [base] when [base] holds no
    separator *)
Lemma split_last_app sep pre base :
  rfind sep base = None ->
  last (split sep (pre +:+ String sep base)) = Some base.
Proof.
  intros Hb. induction pre as [|c pre IH]; simpl.
  - rewrite Ascii.eqb_refl. rewrite split_no_sep by done. done.
  - destruct (Ascii.eqb c sep).
    + simpl in IH. destruct (split sep (pre +:+ String sep base)) eqn:Hs; [done|].
      exact IH.
    + destruct (split sep (pre +:+ String sep base)) as [|w ws] eqn:Hs; [done|].
      destruct ws; [|exact IH].
      simpl in IH. injection IH as ->.
      exfalso. clear -Hs Hb.
      assert (Hl : length (split sep (pre +:+ String sep base)) >= 2).
      { clear. induction pre as [|c pre IH]; simpl.
        - rewrite Ascii.eqb_refl. simpl.
          pose proof (split_nonempty sep base). destruct (split sep base); simpl; [done|lia].
        - destruct (Ascii.eqb c sep); simpl; [lia|].
          destruct (split sep (pre +:+ String sep base)); simpl in *; lia. }
      rewrite Hs in Hl. simpl in Hl. lia.
Qed.

(** the first field of [name ++ sep ++ rest] is [name] when [name] holds
    no separator *)
Lemma split_head_app sep name rest :
  rfind sep name = None ->
  head (split sep (name +:+ String sep rest)) = Some name.
Proof.
  induction name as [|c name IH]; simpl.
  - intros _. by rewrite Ascii.eqb_refl.
  - destruct (rfind sep name) eqn:Hr; [done|].
    destruct (Ascii.eqb c sep); [done|]. intros _.
    specialize (IH eq_refl).
    destruct (split sep (name +:+ String sep rest)); simpl in *; congruence.
Qed.

(** [rfind c s = None] says that [c] does not occur in [s] *)
Lemma rfind_None_iff c s :
  rfind c s = None <-> forall a b, s <> a +:+ String c b.
Proof.
  induction s as [|x s IH]; simpl.
  - split; [|done]. intros _ [|? ?] b; done.
  - destruct (rfind c s) eqn:Hr.
    + split; [done|]. intros H. exfalso.
      assert (Hs : ~ forall a b, s <> a +:+ String c b) by (rewrite <- IH; done).
      apply Hs. intros a b ->. by apply (H (String x a) b).
    + destruct (Ascii.eqb_spec x c) as [->|Hne].
      * split; [done|]. intros H. by destruct (H EmptyString s).
      * split; [|done]. intros _ [|y a] b; simpl; intros [= ? ?]; [done|].
        subst. by apply (proj1 IH eq_refl a b).
Qed.

Lemma deriveIconName_spec p dir base name ext :
  p = base \/ p = dir +:+ String "/" base ->
  rfind "/" base = None ->
  base = name \/ base = name +:+ String "." ext ->
  rfind "." name = None ->
  IconHandler.deriveIconName p = Some name.
Proof.
  intros Hp Hb Hn Hd. unfold IconHandler.deriveIconName, item_last, item_first.
  assert (Hl : last (split "/" p) = Some base).
  { destruct Hp as [->| ->]; [by rewrite split_no_sep|by apply split_last_app]. }
  rewrite Hl. simpl.
  destruct Hn as [->| ->]; [by rewrite split_no_sep|by apply split_head_app].
Qed.

Lemma rfind_drop_self c s d :
  rfind c s = Some d -> rfind c (drop d s) = Some 0.
Proof.
  revert d. induction s as [|a s IH]; intros d; simpl; [done|].
  destruct (rfind c s) as [i|] eqn:Hr.
  - intros [= <-]. simpl. by apply IH.
  - destruct (Ascii.eqb a c) eqn:Ha; [|done].
    intros [= <-]. simpl. by rewrite Hr, Ha.
Qed.

Lemma rfind_drop_ge c s d j :
  rfind c (drop d s) = Some j -> exists i, rfind c s = Some i /\ d <= i.
Proof.
  revert d. induction s as [|a s IH]; intros d.
  - by destruct d.
  - destruct d as [|d]; simpl.
    + intros H. destruct (rfind c s); [|destruct (Ascii.eqb a c); [|done]].
      all: eexists; split; [done|lia].
    + intros H. destruct (IH d H) as (i & -> & Hi). exists (S i). split; [done|lia].
Qed.

(** an extension is empty, or starts at the only dot it holds and holds
    no separator *)
Lemma splitext_ext_shape f :
  (splitext f).2 = EmptyString \/
  (rfind "." (splitext f).2 = Some 0 /\ rfind "/" (splitext f).2 = None).
Proof.
  unfold splitext.
  destruct (rfind "." f) as [d|] eqn:Hd; [|by left].
  destruct (decide _) as [Hle|]; [|by left].
  destruct (has_other _ _); [|by left]. right. simpl. split.
  - by apply rfind_drop_self.
  - destruct (rfind "/" (drop d f)) as [j|] eqn:Hj; [|done].
    destruct (rfind_drop_ge _ _ _ _ Hj) as (i & Hi & Hdi).
    rewrite Hi in Hle. lia.
Qed.

(** the extension [splitext] returns is the extension of "AppIcon"
    followed by it *)
Lemma splitext_AppIcon f :
  splitext ("AppIcon" +:+ (splitext f).2) = ("AppIcon", (splitext f).2).
Proof.
  pose proof (splitext_ext_shape f) as H.
  generalize dependent ((splitext f).2). intros e [->|[Hdot Hsep]]; [done|].
  change ("AppIcon" +:+ e) with
    (String "A" (String "p" (String "p" (String "I" (String "c" (String "o"
       (String "n" e))))))).
  unfold splitext. simpl. rewrite Hdot, Hsep. reflexivity.
Qed.

End PyStrFacts.

(** ** Running method bodies *)

Ltac run_m :=
  unfold lift, finish in *;
  unfold mbind, mret, M_bind, M_ret, bind, ret, raise, try_except,
    get_disk, set_disk, get_iconName, set_iconName, print, spawn, enter in *.

#[local] Arguments logMessage : simpl never.
#[local] Arguments validatePath : simpl never.

Section Frames.
Variable E : env.
Variable self : cfg.

Lemma logMessage_run a b s :
  logMessage self a b s = (Return tt, add_printed (logLines self a b) s).
Proof.
  unfold logMessage, logLines. run_m. unfold add_printed; simpl.
  destruct (verboseErrors self && negb (String.eqb b "")); simpl; [|done].
  by rewrite <- app_assoc.
Qed.

Lemma validatePath_run p s :
  validatePath E self p s =
  match path_resolve E (raw p) with
  | None => (Return true, s)
  | Some e =>
      if caught e
      then (Return false,
            add_printed (logLines self ("Error finding the path " +:+ fspath E p)
                                  ("The error was: " +:+ exn_text e)) s)
      else (Raise e, s)
  end.
Proof.
  unfold validatePath, resolve, caught. run_m.
  destruct (path_resolve E (raw p)) as [e|]; simpl; [|done].
  by rewrite logMessage_run.
Qed.

Ltac crunch :=
  repeat (simpl in *; rewrite ?logMessage_run, ?validatePath_run in *;
          try case_match; simplify_eq).

Lemma validateData_frame a s o s' :
  validateData E self a s = (o, s') ->
  disk s' = disk s /\ iconName s' = iconName s /\
  entered s' = entered s ++ [ValidateData].
Proof.
  unfold validateData, clearScreen. run_m. intros H.
  crunch; done.
Qed.

Lemma compileIcon_frame p s o s' :
  compileIcon E self p s = (o, s') ->
  infoPlist (disk s') = infoPlist (disk s) /\
  resources (disk s') = resources (disk s) /\
  codeSignature (disk s') = codeSignature (disk s) /\
  entered s' = entered s ++ [CompileIcon] /\
  (forall e, path_resolve E p = Some e -> iconName s' = iconName s) /\
  (o = Return tt -> path_resolve E p = None -> iconName s' = deriveIconName p).
Proof.
  unfold compileIcon, listdir. run_m. intros H.
  crunch; repeat split; intros; simplify_eq; done.
Qed.

Lemma updateInfoPlist_frame p fb s o s' :
  updateInfoPlist E p fb s = (o, s') ->
  outputDir (disk s') = outputDir (disk s) /\
  resources (disk s') = resources (disk s) /\
  codeSignature (disk s') = codeSignature (disk s) /\
  iconName s' = iconName s /\
  printed s' = printed s /\ spawned s' = spawned s /\
  entered s' = entered s ++ [UpdateInfoPlist].
Proof.
  unfold updateInfoPlist, setitem. run_m. intros H.
  crunch; done.
Qed.

(** the dictionary [updateInfoPlist] hands to the serializer, and what
    the serializer leaves of the file *)
Lemma updateInfoPlist_writes p fb s d n :
  infoPlist (disk s) = Some (Parsed (PDict d)) ->
  iconName s = Some n ->
  updateInfoPlist E p fb s =
  match plist_dump E (PDict (edited fb n d)) with
  | CutShort e unreadable =>
      (Raise e,
       with_disk
         (Fs (outputDir (disk s)) (Some (Unparseable unreadable))
             (resources (disk s)) (codeSignature (disk s)))
         (add_entered UpdateInfoPlist s))
  | Whole f =>
      (Return tt,
       with_disk
         (Fs (outputDir (disk s)) (Some f) (resources (disk s)) (codeSignature (disk s)))
         (add_entered UpdateInfoPlist s))
  end.
Proof.
  intros Hp Hn. unfold updateInfoPlist, setitem, edited. run_m.
  destruct s as [dk ic pr sp en]; simpl in *; subst.
  unfold add_entered; simpl. rewrite Hp. simpl.
  destruct (negb (String.eqb fb "")); simpl; by destruct (plist_dump E _).
Qed.

Lemma updateInfoPlist_unparseable p fb s e :
  infoPlist (disk s) = Some (Unparseable e) ->
  updateInfoPlist E p fb s = (Raise e, add_entered UpdateInfoPlist s).
Proof.
  intros Hp. unfold updateInfoPlist. run_m.
  destruct s as [dk ic pr sp en]; simpl in *; subst.
  unfold add_entered; simpl. by rewrite Hp.
Qed.

(** without [self.iconName] the stage raises before it writes *)
Lemma updateInfoPlist_no_iconName p fb s :
  iconName s = None ->
  exists e, updateInfoPlist E p fb s = (Raise e, add_entered UpdateInfoPlist s).
Proof.
  intros Hn. unfold updateInfoPlist. run_m.
  destruct s as [dk ic pr sp en]; simpl in *; subst.
  unfold add_entered; simpl.
  destruct (infoPlist dk) as [[e|root]|]; simpl; eauto.
Qed.

Lemma updateInfoPlist_returns p fb s s' :
  updateInfoPlist E p fb s = (Return tt, s') ->
  exists d n f,
    infoPlist (disk s) = Some (Parsed (PDict d)) /\ iconName s = Some n /\
    plist_dump E (PDict (edited fb n d)) = Whole f /\
    infoPlist (disk s') = Some f.
Proof.
  intros H.
  destruct (infoPlist (disk s)) as [[e|root]|] eqn:Hp.
  - revert H. unfold updateInfoPlist. run_m. simpl. rewrite Hp. done.
  - destruct (iconName s) as [n|] eqn:Hn.
    + destruct root as [x|z|x|b|x|x|items|d];
        try by (revert H; unfold updateInfoPlist, setitem; run_m; simpl; rewrite Hp; simpl; rewrite Hn).
      rewrite (updateInfoPlist_writes p fb s d n Hp Hn) in H.
      destruct (plist_dump E _) as [e u|f] eqn:Hd; [done|].
      exists d, n, f. by simplify_eq.
    + revert H. unfold updateInfoPlist. run_m. simpl. rewrite Hp. simpl. rewrite Hn. done.
  - revert H. unfold updateInfoPlist. run_m. simpl. rewrite Hp. done.
Qed.

Lemma moveIconToApp_frame a s o s' :
  moveIconToApp E a s = (o, s') ->
  infoPlist (disk s') = infoPlist (disk s) /\
  codeSignature (disk s') = codeSignature (disk s) /\
  iconName s' = iconName s /\
  printed s' = printed s /\ spawned s' = spawned s /\
  entered s' = entered s ++ [MoveIconToApp].
Proof.
  unfold moveIconToApp, ensureBackupDir, listdir, set_resources. run_m. intros H.
  crunch; done.
Qed.

Lemma resignAppForLocalUse_frame a i s o s' :
  resignAppForLocalUse E self a i s = (o, s') ->
  outputDir (disk s') = outputDir (disk s) /\
  infoPlist (disk s') = infoPlist (disk s) /\
  resources (disk s') = resources (disk s) /\
  iconName s' = iconName s /\
  entered s' = entered s ++ [ResignAppForLocalUse].
Proof.
  unfold resignAppForLocalUse. run_m. intros H.
  crunch; done.
Qed.

(** [__init__] stage by stage *)
Lemma init_run s :
  init E self s =
  match validateData E self "" s with
  | (Raise e, s1) => (Raise e, s1)
  | (Return _, s1) =>
      match compileIcon E self (iconBundlePath self) s1 with
      | (Raise e, s2) => (Raise e, s2)
      | (Return _, s2) =>
          match updateInfoPlist E (appBundlePath self +:+ "/Contents/Info.plist") "" s2 with
          | (Raise e, s3) => (Raise e, s3)
          | (Return _, s3) =>
              match moveIconToApp E "" s3 with
              | (Raise e, s4) => (Raise e, s4)
              | (Return _, s4) =>
                  match resignAppForLocalUse E self "" "-" s4 with
                  | (Raise e, s5) => (Raise e, s5)
                  | (Return _, s5) => (Return tt, s5)
                  end
              end
          end
      end
  end.
Proof.
  unfold init. run_m.
  destruct (validateData E self "" s) as [[[]|e1] s1]; [|done].
  destruct (compileIcon E self (iconBundlePath self) s1) as [[[]|e2] s2]; [|done].
  destruct (updateInfoPlist E _ "" s2) as [[[]|e3] s3]; [|done].
  destruct (moveIconToApp E "" s3) as [[[]|e4] s4]; [|done].
  by destruct (resignAppForLocalUse E self "" "-" s4) as [[b|e5] s5].
Qed.

Ltac frames :=
  repeat match goal with
  | H : validateData _ _ _ _ = _ |- _ =>
      destruct (validateData_frame _ _ _ _ H) as (?&?&?); clear H
  | H : compileIcon _ _ _ _ = _ |- _ =>
      destruct (compileIcon_frame _ _ _ _ H) as (?&?&?&?&?&?); clear H
  | H : updateInfoPlist _ _ _ _ = _ |- _ =>
      destruct (updateInfoPlist_frame _ _ _ _ _ H) as (?&?&?&?&?&?&?); clear H
  | H : moveIconToApp _ _ _ = _ |- _ =>
      destruct (moveIconToApp_frame _ _ _ _ H) as (?&?&?&?&?&?); clear H
  | H : resignAppForLocalUse _ _ _ _ _ = _ |- _ =>
      destruct (resignAppForLocalUse_frame _ _ _ _ _ H) as (?&?&?&?&?); clear H
  end.

Ltac halted :=
  unfold halted_before_relocation; frames; simpl in *;
  repeat split; eauto; try congruence;
  repeat match goal with
  | H : entered ?x = _ |- context [entered ?x] => rewrite H
  end; simpl; rewrite ?not_elem_of_cons;
  repeat split; try discriminate; apply not_elem_of_nil.

(** C6: a metadata file that does not parse makes [updateInfoPlist] raise
    with the disk as it found it, and a run on such a bundle ends in an
    exception with Info.plist, Resources and the signature untouched and
    neither [moveIconToApp] nor [resignAppForLocalUse] entered. *)
Theorem unparseable_metadata_halts d e :
  infoPlist d = Some (Unparseable e) ->
  (forall p fb s,
      infoPlist (disk s) = Some (Unparseable e) ->
      exists s', updateInfoPlist E p fb s = (Raise e, s') /\ disk s' = disk s) /\
  (forall o s', run E self d = (o, s') -> halted_before_relocation d o s').
Proof.
  intros Hd. split.
  - intros p fb s Hs. eexists. split; [by apply updateInfoPlist_unparseable|done].
  - intros o s'. unfold run. rewrite init_run.
    destruct (validateData E self "" (fresh d)) as [[[]|e1] s1] eqn:H1.
    2:{ intros [= <- <-]. halted. }
    destruct (compileIcon E self (iconBundlePath self) s1) as [[[]|e2] s2] eqn:H2.
    2:{ intros [= <- <-]. halted. }
    assert (Hs2 : infoPlist (disk s2) = Some (Unparseable e)).
    { destruct (validateData_frame _ _ _ _ H1) as (Hd1&_&_).
    destruct (compileIcon_frame _ _ _ _ H2) as (Hi2&_).
    by rewrite Hi2, Hd1. }
    rewrite (updateInfoPlist_unparseable _ _ _ _ Hs2).
    intros [= <- <-]. halted.
Qed.

Lemma compileIcon_invalid p s e :
  path_resolve E p = Some e -> caught e = true ->
  (forall x, outputDir (disk s) <> Some (File x)) ->
  exists s', compileIcon E self p s = (Return tt, s').
Proof.
  intros Hp Hc Hf. unfold compileIcon. run_m.
  destruct s as [[od ip rs cs] ic pr sp en]; simpl in *.
  destruct od as [[x|c]|]; simpl.
  - by destruct (Hf x).
  - rewrite validatePath_run. simpl. rewrite Hp, Hc. simpl. eauto.
  - rewrite validatePath_run. simpl. rewrite Hp, Hc. simpl. eauto.
Qed.

(** C1, as the code has it: when the icon path fails validation the run
    ends in an exception with the bundle untouched and neither
    [moveIconToApp] nor [resignAppForLocalUse] entered; but
    [updateInfoPlist] is entered (whenever [validateData] returned and
    [./OutputDir] could be recreated) and is where the exception comes
    from. *)
Theorem unresolvable_icon_halts d e :
  path_resolve E (iconBundlePath self) = Some e ->
  caught e = true ->
  forall o s', run E self d = (o, s') ->
    halted_before_relocation d o s' /\
    (forall s1,
        validateData E self "" (fresh d) = (Return tt, s1) ->
        (forall x, outputDir d <> Some (File x)) ->
        entered s' = [ValidateData; CompileIcon; UpdateInfoPlist]).
Proof.
  intros Hp Hc o s'. unfold run. rewrite init_run.
  destruct (validateData E self "" (fresh d)) as [[[]|e1] s1] eqn:H1.
  2:{ intros [= <- <-]. split; [halted|done]. }
  destruct (compileIcon E self (iconBundlePath self) s1) as [[[]|e2] s2] eqn:H2.
  2:{ intros [= <- <-]. split; [halted|].
      intros s1' [= <-] Hf.
      destruct (compileIcon_invalid (iconBundlePath self) s1 e Hp Hc) as [s2' Hs2'].
      - apply validateData_frame in H1 as (Hd&_&_). by rewrite Hd.
      - congruence. }
  assert (Hn : iconName s2 = None).
  { destruct (validateData_frame _ _ _ _ H1) as (_&Hi1&_).
    destruct (compileIcon_frame _ _ _ _ H2) as (_&_&_&_&Hi2&_).
    by rewrite (Hi2 e Hp), Hi1. }
  destruct (updateInfoPlist_no_iconName
              (appBundlePath self +:+ "/Contents/Info.plist") "" s2 Hn) as [e3 H3].
  rewrite H3. intros [= <- <-]. split; [halted|].
  intros _ _ _. frames. simpl in *.
  repeat match goal with
  | H : entered ?x = _ |- context [entered ?x] => rewrite H
  end. done.
Qed.

(** C4, as the code has it: the identifier [compileIcon] derives is the part of the
    path's base name (what follows the last "/") before its first dot.  A
    run that returns has handed the bundle's dictionary with that
    identifier under CFBundleIconName to the serializer, and the metadata
    file is what the serializer left: the key equals the identifier when
    the file reads back as it was written.  For icons/Rocket.icon the key
    is "Rocket". *)
Theorem icon_identifier_is_basename_stem d dir base name ext :
  iconBundlePath self = base \/ iconBundlePath self = dir +:+ String "/" base ->
  PyStr.rfind "/" base = None ->
  base = name \/ base = name +:+ String "." ext ->
  PyStr.rfind "." name = None ->
  deriveIconName (iconBundlePath self) = Some name /\
  (forall s', run E self d = (Return tt, s') ->
     exists m f,
       infoPlist d = Some (Parsed (PDict m)) /\
       plist_dump E (PDict (<["CFBundleIconName" := PStr name]> m)) = Whole f /\
       infoPlist (disk s') = Some f /\
       (f = Parsed (PDict (<["CFBundleIconName" := PStr name]> m)) ->
        exists m', infoPlist (disk s') = Some (Parsed (PDict m')) /\
                   m' !! "CFBundleIconName" = Some (PStr name))) /\
  (exists s' m,
     run Scenario.tools Scenario.args Scenario.disk0 = (Return tt, s') /\
     infoPlist (disk s') = Some (Parsed (PDict m)) /\
     m !! "CFBundleIconName" = Some (PStr "Rocket")).
Proof.
  intros Hp Hb Hn Hd.
  pose proof (deriveIconName_spec _ _ _ _ _ Hp Hb Hn Hd) as Hname.
  split; [done|]. split.
  - intros s'. unfold run. rewrite init_run.
    destruct (validateData E self "" (fresh d)) as [[[]|e1] s1] eqn:H1; [|done].
    destruct (compileIcon E self (iconBundlePath self) s1) as [[[]|e2] s2] eqn:H2; [|done].
    destruct (updateInfoPlist E _ "" s2) as [[[]|e3] s3] eqn:H3; [|done].
    destruct (moveIconToApp E "" s3) as [[[]|e4] s4] eqn:H4; [|done].
    destruct (resignAppForLocalUse E self "" "-" s4) as [[b|e5] s5] eqn:H5; [|done].
    intros [= <-].
    destruct (updateInfoPlist_returns _ _ _ _ H3) as (m & n & f & Hm & Hi & Hdump & Hf).
    destruct (validateData_frame _ _ _ _ H1) as (Hd1&Hi1&_).
    destruct (compileIcon_frame _ _ _ _ H2) as (Hp2&_&_&_&Hbad&Hgood).
    destruct (moveIconToApp_frame _ _ _ _ H4) as (Hp4&_).
    destruct (resignAppForLocalUse_frame _ _ _ _ _ H5) as (_&Hp5&_).
    assert (Hn' : n = name).
    { destruct (path_resolve E (iconBundlePath self)) as [e|] eqn:Hr.
      - rewrite (Hbad e eq_refl), Hi1 in Hi. done.
      - rewrite (Hgood eq_refl eq_refl), Hname in Hi. congruence. }
    subst n. exists m, f. split; [by rewrite <- Hm, Hp2, Hd1|].
    split; [exact Hdump|]. split; [by rewrite Hp5, Hp4|].
    intros ->. eexists. split; [by rewrite Hp5, Hp4|]. apply lookup_insert_eq.
  - eexists _, _. split; [vm_compute; reflexivity|]. split; [reflexivity|].
    vm_compute. reflexivity.
Qed.


(** C5: without a discoverable codesign, [resignAppForLocalUse] leaves the
    disk (the signature directory with it) as it was and starts no
    process; it returns False after printing a message whenever path
    validation does not itself propagate an exception. *)
Theorem no_codesign_no_mutation a i s :
  which E "codesign" = None ->
  forall o s', resignAppForLocalUse E self a i s = (o, s') ->
    disk s' = disk s /\
    codeSignature (disk s') = codeSignature (disk s) /\
    spawned s' = spawned s /\
    o <> Return true /\
    ((forall e, path_resolve E (if String.eqb a "" then appBundlePath self else a) = Some e ->
                caught e = true) ->
     o = Return false /\ exists msg rest, printed s' = printed s ++ msg :: rest).
Proof.
  intros Hw o s'. unfold resignAppForLocalUse. run_m.
  rewrite validatePath_run, Hw. simpl.
  destruct (path_resolve E _) as [e|] eqn:Hr.
  - destruct (caught e) eqn:Hc; simpl.
    + intros [= <- <-]. simpl. repeat split; try done. unfold logLines. eauto.
    + intros [= <- <-]. simpl. repeat split; try done.
      all: match goal with H : forall _, _ -> caught _ = true |- _ =>
             specialize (H e eq_refl); congruence end.
  - simpl. rewrite logMessage_run. intros [= <- <-]. simpl.
    repeat split; try done. unfold logLines. eauto.
Qed.

(** C9, as the code has it: a path that resolves is accepted without any
    message; a resolution that raises OSError (or a subclass), RuntimeError
    or ValueError is answered by a printed failure message naming the path
    and the value False, never by a propagated exception. *)
Theorem validatePath_reports_failures_only p s :
  (path_resolve E (raw p) = None -> validatePath E self p s = (Return true, s)) /\
  (forall e, path_resolve E (raw p) = Some e -> caught e = true ->
     validatePath E self p s =
     (Return false,
      add_printed (("Error finding the path " +:+ fspath E p) ::
                   (if verboseErrors self
                    then ["    The error was: " +:+ exn_text e] else [])) s)) /\
  (forall e, issubclass (exn_type e) OSError = true -> caught e = true).
Proof.
  rewrite validatePath_run. split; [by intros ->|]. split.
  - intros e -> ->. unfold logLines. simpl.
    by destruct (verboseErrors self).
  - intros e He. unfold caught, isinstance. simpl. by rewrite He.
Qed.

End Frames.

(** ** The renaming loop of [compileIcon] *)

Section RenameLoop.

Lemma extension_renamed f : extension (renamed f) = extension f.
Proof.
  unfold renamed. destruct (String.eqb (extension f) ".car"); [done|].
  unfold extension. by rewrite splitext_AppIcon.
Qed.

Lemma renamed_idem f : renamed (renamed f) = renamed f.
Proof.
  unfold renamed at 1. rewrite extension_renamed.
  unfold renamed. by destruct (String.eqb (extension f) ".car").
Qed.

(** a name some file is renamed to is itself left alone by the loop *)
Lemma renamed_target_fixed f g : renamed g = f -> renamed f = f.
Proof. intros <-. apply renamed_idem. Qed.

Lemma renamed_car f : extension f = ".car" -> renamed f = f.
Proof. intros He. unfold renamed. by rewrite He. Qed.

Lemma renamed_not_car f :
  extension f <> ".car" -> renamed f = "AppIcon" +:+ extension f.
Proof.
  intros He. unfold renamed.
  destruct (String.eqb_spec (extension f) ".car"); done.
Qed.

Lemma renameLoop_cons f rest d :
  renameLoop (f :: rest) d =
  if String.eqb (extension f) ".car" then renameLoop rest d
  else match FS.rename d f (renamed f) with
       | inl e => (Some e, d)
       | inr d' => renameLoop rest d'
       end.
Proof.
  simpl. unfold renamed, extension.
  destruct (PyStr.splitext f) as [name ext]; simpl.
  by destruct (String.eqb ext ".car").
Qed.

Lemma rename_lookup_ne d old new d' k :
  FS.rename d old new = inr d' -> k <> old -> k <> new -> d' !! k = d !! k.
Proof.
  unfold FS.rename, FS.err. intros H Ho Hn.
  destruct (d !! old) as [src|]; [|done].
  destruct (decide (old = new)); [by simplify_eq|].
  assert (<[new := src]> (delete old d) !! k = d !! k) as Hk.
  { by rewrite lookup_insert_ne, lookup_delete_ne. }
  repeat case_match; simplify_eq; done.
Qed.

Lemma rename_same d f d' : FS.rename d f f = inr d' -> d' = d.
Proof.
  unfold FS.rename, FS.err. destruct (d !! f); [|done].
  destruct (decide (f = f)); [|done]. by intros [= <-].
Qed.

(** a name that no effective rename of the loop reads or writes keeps
    its entry *)
Lemma renameLoop_keeps files d k :
  (forall g, g ∈ files -> renamed g <> g -> g <> k /\ renamed g <> k) ->
  (renameLoop files d).2 !! k = d !! k.
Proof.
  revert d. induction files as [|g rest IH]; intros d Hk; [done|].
  assert (Hrest : forall g', g' ∈ rest -> renamed g' <> g' -> g' <> k /\ renamed g' <> k).
  { intros g' Hg'. apply Hk. by right. }
  rewrite renameLoop_cons.
  destruct (String.eqb (extension g) ".car"); [by apply IH|].
  destruct (FS.rename d g (renamed g)) as [e|d'] eqn:Hr; [done|].
  rewrite IH by done.
  destruct (decide (renamed g = g)) as [Heq|Hne].
  - rewrite Heq in Hr. by rewrite (rename_same _ _ _ Hr).
  - destruct (Hk g) as [? ?]; [by left|done|].
    by apply (rename_lookup_ne _ _ _ _ _ Hr).
Qed.

(** one iteration on a regular listing *)
Lemma renameLoop_step g rest d :
  regular_listing (g :: rest) d ->
  exists x,
    d !! g = Some (File x) /\
    let d' := if decide (renamed g = g) then d
              else <[renamed g := File x]> (delete g d) in
    renameLoop (g :: rest) d = renameLoop rest d' /\
    regular_listing rest d'.
Proof.
  intros (Hnd & Hin & Hall).
  destruct (Hin g) as [x Hx]; [by left|]. exists x. split; [done|].
  apply NoDup_cons in Hnd as [Hg Hnd].
  rewrite renameLoop_cons. simpl.
  destruct (decide (renamed g = g)) as [Heq|Hne].
  - split.
    + destruct (String.eqb (extension g) ".car"); [done|].
      rewrite Heq. unfold FS.rename. rewrite Hx.
      by destruct (decide (g = g)).
    + split; [done|]. split; [|done]. intros f Hf. apply Hin. by right.
  - assert (Hr : FS.rename d g (renamed g)
                 = inr (<[renamed g := File x]> (delete g d))).
    { unfold FS.rename, FS.err. rewrite Hx.
      destruct (decide (g = renamed g)); [done|].
      destruct (d !! renamed g) as [[y|c]|] eqn:Ht; [done| |done].
      by specialize (Hall _ _ Ht). }
    split.
    + destruct (String.eqb_spec (extension g) ".car") as [He|He].
      * by rewrite (renamed_car _ He) in Hne.
      * by rewrite Hr.
    + split; [done|]. split.
      * intros f Hf.
        destruct (decide (f = renamed g)) as [->|Hft].
        -- exists x. apply lookup_insert_eq.
        -- rewrite lookup_insert_ne by done.
           rewrite lookup_delete_ne by (intros ->; done).
           apply Hin. by right.
      * intros k n. rewrite lookup_insert.
        destruct (decide (renamed g = k)); [by intros [= <-]|].
        rewrite lookup_delete. destruct (decide (g = k)); [done|]. apply Hall.
Qed.

(** on a regular listing the loop ends without an exception and leaves
    regular files only *)
Lemma renameLoop_regular files d :
  regular_listing files d ->
  (renameLoop files d).1 = None /\
  (forall k n, (renameLoop files d).2 !! k = Some n -> FS.is_file n = true).
Proof.
  revert d. induction files as [|g rest IH]; intros d Hok.
  - split; [done|]. apply Hok.
  - destruct (renameLoop_step _ _ _ Hok) as (x & _ & -> & Hok'). by apply IH.
Qed.

(** a file the loop renames is no longer found under its old name *)
Lemma renameLoop_old_name_gone files d f :
  regular_listing files d -> f ∈ files -> renamed f <> f ->
  (renameLoop files d).2 !! f = None.
Proof.
  revert d. induction files as [|g rest IH]; intros d Hok Hf Hne.
  - by apply elem_of_nil in Hf.
  - destruct (renameLoop_step _ _ _ Hok) as (x & Hx & Heq & Hok').
    cbv zeta in Heq, Hok'. rewrite Heq.
    apply elem_of_cons in Hf as [->|Hf]; [|by apply IH].
    destruct (decide (renamed g = g)); [done|].
    rewrite renameLoop_keeps.
    + rewrite lookup_insert_ne by done. apply lookup_delete_eq.
    + intros g' Hg' _. split.
      * intros ->. destruct Hok as (Hnd & _). by apply NoDup_cons in Hnd as [? _].
      * intros Ht. by apply renamed_target_fixed in Ht.
Qed.

(** a name the loop leaves alone and that exists is still there at the
    end *)
Lemma renameLoop_fixed_name_stays files d k :
  regular_listing files d -> renamed k = k -> is_Some (d !! k) ->
  is_Some ((renameLoop files d).2 !! k).
Proof.
  revert d. induction files as [|g rest IH]; intros d Hok Hk Hsome; [done|].
  destruct (renameLoop_step _ _ _ Hok) as (x & Hx & Heq & Hok').
  cbv zeta in Heq, Hok'. rewrite Heq. apply IH; [done|done|].
  destruct (decide (renamed g = g)); [done|].
  rewrite lookup_insert. destruct (decide (renamed g = k)); [done|].
  rewrite lookup_delete_ne; [done|]. intros ->. done.
Qed.

(** every listed file's new name exists at the end *)
Lemma renameLoop_new_name_present files d f :
  regular_listing files d -> f ∈ files ->
  is_Some ((renameLoop files d).2 !! renamed f).
Proof.
  revert d. induction files as [|g rest IH]; intros d Hok Hf.
  - by apply elem_of_nil in Hf.
  - destruct (renameLoop_step _ _ _ Hok) as (x & Hx & Heq & Hok').
    cbv zeta in Heq, Hok'. rewrite Heq.
    apply elem_of_cons in Hf as [->|Hf]; [|by apply IH].
    apply renameLoop_fixed_name_stays; [done|apply renamed_idem|].
    destruct (decide (renamed g = g)) as [->|]; [by rewrite Hx|].
    by rewrite lookup_insert_eq.
Qed.

(** the last file that is really renamed to a name has its data there *)
Lemma renameLoop_last_wins pre f post d x :
  regular_listing (pre ++ f :: post) d ->
  d !! f = Some (File x) ->
  renamed f <> f ->
  (forall g, g ∈ post -> renamed g = renamed f -> renamed g = g) ->
  (renameLoop (pre ++ f :: post) d).2 !! renamed f = Some (File x).
Proof.
  revert d. induction pre as [|g pre IH]; intros d Hok Hx Hne Hpost.
  - change ([] ++ f :: post) with (f :: post) in *.
    destruct (renameLoop_step _ _ _ Hok) as (x' & Hx' & Heq & Hok').
    cbv zeta in Heq, Hok'. rewrite Heq.
    destruct (decide (renamed f = f)); [done|].
    rewrite renameLoop_keeps.
    + rewrite lookup_insert_eq. congruence.
    + intros g Hg Hgne. split.
      * intros ->. by rewrite renamed_idem in Hgne.
      * intros Ht. by apply Hgne, Hpost.
  - change ((g :: pre) ++ f :: post) with (g :: (pre ++ f :: post)) in *.
    destruct (renameLoop_step _ _ _ Hok) as (x' & Hx' & Heq & Hok').
    cbv zeta in Heq, Hok'. rewrite Heq. apply IH; try done.
    destruct (decide (renamed g = g)); [done|].
    destruct Hok as (Hnd & _). simpl in Hnd. apply NoDup_cons in Hnd as [Hg _].
    rewrite lookup_insert_ne.
    + rewrite lookup_delete_ne; [done|]. intros ->. apply Hg.
      apply elem_of_app. right. by left.
    + intros Ht. by apply renamed_target_fixed in Ht.
Qed.

(** at the end every name of a full listing is one the loop leaves alone *)
Lemma renameLoop_names_fixed files d k :
  regular_listing files d ->
  (forall j, is_Some (d !! j) -> j ∈ files) ->
  is_Some ((renameLoop files d).2 !! k) -> renamed k = k.
Proof.
  intros Hok Hfull Hk.
  destruct (decide (renamed k = k)) as [|Hne]; [done|]. exfalso.
  destruct (decide (k ∈ files)) as [Hin|Hnin].
  - rewrite (renameLoop_old_name_gone _ _ _ Hok Hin Hne) in Hk.
    by destruct Hk.
  - rewrite renameLoop_keeps in Hk.
    + by apply Hnin, Hfull.
    + intros g Hg _. split; [by intros ->|].
      intros Ht. by apply renamed_target_fixed in Ht.
Qed.

End RenameLoop.

(** ** [compileIcon] on a path that resolves *)

Section CompileIcon.
Variable E : env.
Variable self : cfg.

Lemma deriveIconName_total p : exists n, deriveIconName p = Some n.
Proof.
  unfold deriveIconName, PyStr.item_last, PyStr.item_first.
  pose proof (split_nonempty "/" p) as H1.
  destruct (last (PyStr.split "/" p)) as [b|] eqn:Hl.
  - simpl. pose proof (split_nonempty "." b) as H2.
    destruct (PyStr.split "." b); [done|]. simpl. eauto.
  - apply last_None in Hl. done.
Qed.

Lemma listingOf_elem produced f :
  listing_ok E -> f ∈ listingOf E produced <-> is_Some (produced !! f).
Proof.
  intros Hok. unfold listingOf. rewrite (Hok _).
  rewrite list_elem_of_fmap. split.
  - intros ([k n] & -> & Hin). apply elem_of_map_to_list in Hin. by exists n.
  - intros [n Hn]. exists (f, n). split; [done|]. by apply elem_of_map_to_list.
Qed.

Lemma listingOf_regular produced :
  listing_ok E ->
  (forall k n, produced !! k = Some n -> FS.is_file n = true) ->
  regular_listing (listingOf E produced) produced.
Proof.
  intros Hok Hall. split; [|split; [|done]].
  - unfold listingOf. rewrite (Hok _). apply NoDup_fst_map_to_list.
  - intros f Hf. apply listingOf_elem in Hf as [n Hn]; [|done].
    specialize (Hall _ _ Hn). destruct n; [eauto|done].
Qed.

Lemma compileIcon_valid p s name r produced :
  path_resolve E p = None ->
  (forall x, outputDir (disk s) <> Some (File x)) ->
  deriveIconName p = Some name ->
  run_actool E (actoolArgs p name) ∅ = inr (r, produced) ->
  exists s',
    compileIcon E self p s =
    (match (renameLoop (listingOf E produced) produced).1 with
     | None => Return tt
     | Some e => Raise e
     end, s') /\
    outputDir (disk s') = Some (Dir (renameLoop (listingOf E produced) produced).2).
Proof.
  intros Hp Hf Hname Hrun. unfold compileIcon, listdir, listingOf. run_m.
  destruct s as [[od ip rs cs] ic pr sp en]; simpl in *.
  assert (Hod : match od with Some (File _) => False | _ => True end).
  { destruct od as [[x|c]|]; try done. by apply (Hf x). }
  destruct od as [[x|c]|]; [done| |].
  all: simpl; rewrite validatePath_run; simpl; rewrite Hp, Hname; simpl;
    rewrite Hrun; simpl; rewrite logMessage_run; simpl;
    destruct (renameLoop _ produced) as [[e|] d']; simpl; eauto.
Qed.

(** C7: when the path resolves and [actool] has written regular files
    only, [compileIcon] returns and leaves in [./OutputDir]: each .car file
    under its own name with its data; for each other file an entry named
    AppIcon plus the file's extension, nothing under the file's old name,
    and the file's own data in that entry when no other file shares the
    extension. *)
Theorem compiled_files_renamed p s name r produced :
  listing_ok E ->
  path_resolve E p = None ->
  (forall x, outputDir (disk s) <> Some (File x)) ->
  deriveIconName p = Some name ->
  run_actool E (actoolArgs p name) ∅ = inr (r, produced) ->
  (forall k n, produced !! k = Some n -> FS.is_file n = true) ->
  exists s' d',
    compileIcon E self p s = (Return tt, s') /\
    outputDir (disk s') = Some (Dir d') /\
    forall f x, produced !! f = Some (File x) ->
      (extension f = ".car" -> d' !! f = Some (File x)) /\
      (extension f <> ".car" ->
         (exists y, d' !! ("AppIcon" +:+ extension f) = Some (File y)) /\
         (f <> "AppIcon" +:+ extension f -> d' !! f = None) /\
         ((forall g, is_Some (produced !! g) -> extension g = extension f -> g = f) ->
          d' !! ("AppIcon" +:+ extension f) = Some (File x))).
Proof.
  intros Hok Hp Hf Hname Hrun Hall.
  destruct (compileIcon_valid p s name r produced Hp Hf Hname Hrun) as (s' & Hc & Hd).
  pose proof (listingOf_regular produced Hok Hall) as Hreg.
  destruct (renameLoop_regular _ _ Hreg) as [Hnone Hfiles].
  rewrite Hnone in Hc. eexists s', _. split; [done|]. split; [done|].
  intros f x Hfx.
  assert (Hin : f ∈ listingOf E produced).
  { apply listingOf_elem; [done|]. by rewrite Hfx. }
  split.
  - intros Hcar. rewrite renameLoop_keeps; [done|].
    intros g _ Hg. split.
    + intros ->. by apply Hg, renamed_car.
    + intros Ht. rewrite <- Ht, extension_renamed in Hcar.
      by apply Hg, renamed_car.
  - intros Hncar. rewrite <- (renamed_not_car _ Hncar). split; [|split].
    + destruct (renameLoop_new_name_present _ _ f Hreg Hin) as [n Hn].
      specialize (Hfiles _ _ Hn). destruct n; [eauto|done].
    + intros Hne. by apply renameLoop_old_name_gone.
    + intros Huniq.
      assert (Hother : forall g, g ∈ listingOf E produced ->
                renamed g = renamed f -> g = f).
      { intros g Hg Ht. apply Huniq; [by apply listingOf_elem|].
        by rewrite <- (extension_renamed g), Ht, extension_renamed. }
      destruct (decide (renamed f = f)) as [Heq|Hne].
      * rewrite Heq. rewrite renameLoop_keeps; [done|].
        intros g Hg Hgne. split; [by intros ->|].
        intros Ht. apply Hgne. rewrite <- Heq in Ht.
        by rewrite (Hother g Hg Ht).
      * apply list_elem_of_split in Hin as (pre & post & Hsplit).
        rewrite Hsplit in Hreg |- *.
        apply renameLoop_last_wins; try done.
        intros g Hg Ht. exfalso.
        assert (g = f) as ->.
        { apply Hother; [|done]. rewrite Hsplit.
          apply elem_of_app. right. by right. }
        destruct Hreg as (Hnd & _).
        apply NoDup_app in Hnd as (_ & _ & Hnd).
        by apply NoDup_cons in Hnd as [? _].
Qed.

(** C10: under the same conditions [compileIcon] returns with at most one
    entry per extension other than .car, the one named AppIcon plus that
    extension; it holds the data of the last listed file of that extension
    that had another name, and the names of the files of that extension
    listed before it are gone. *)
Theorem same_extension_files_collapse p s name r produced :
  listing_ok E ->
  path_resolve E p = None ->
  (forall x, outputDir (disk s) <> Some (File x)) ->
  deriveIconName p = Some name ->
  run_actool E (actoolArgs p name) ∅ = inr (r, produced) ->
  (forall k n, produced !! k = Some n -> FS.is_file n = true) ->
  exists s' d',
    compileIcon E self p s = (Return tt, s') /\
    outputDir (disk s') = Some (Dir d') /\
    (forall k, is_Some (d' !! k) -> extension k <> ".car" ->
               k = "AppIcon" +:+ extension k) /\
    (forall k1 k2, is_Some (d' !! k1) -> is_Some (d' !! k2) ->
                   extension k1 = extension k2 -> extension k1 <> ".car" -> k1 = k2) /\
    (forall pre f post x,
        listingOf E produced = pre ++ f :: post ->
        produced !! f = Some (File x) ->
        extension f <> ".car" ->
        f <> "AppIcon" +:+ extension f ->
        (forall g, g ∈ post -> extension g = extension f ->
                   g = "AppIcon" +:+ extension g) ->
        d' !! ("AppIcon" +:+ extension f) = Some (File x) /\
        (forall g, g ∈ pre -> extension g = extension f ->
                   g <> "AppIcon" +:+ extension g -> d' !! g = None)).
Proof.
  intros Hok Hp Hf Hname Hrun Hall.
  destruct (compileIcon_valid p s name r produced Hp Hf Hname Hrun) as (s' & Hc & Hd).
  pose proof (listingOf_regular produced Hok Hall) as Hreg.
  destruct (renameLoop_regular _ _ Hreg) as [Hnone Hfiles].
  rewrite Hnone in Hc. eexists s', _. split; [done|]. split; [done|].
  assert (Hfix : forall k, is_Some ((renameLoop (listingOf E produced) produced).2 !! k) ->
            extension k <> ".car" -> k = "AppIcon" +:+ extension k).
  { intros k Hk Hncar. rewrite <- (renamed_not_car _ Hncar). symmetry.
    apply (renameLoop_names_fixed _ _ _ Hreg); [|done].
    intros j Hj. by apply listingOf_elem. }
  split; [done|]. split.
  - intros k1 k2 H1 H2 He Hncar.
    rewrite (Hfix k1 H1 Hncar), (Hfix k2 H2) by congruence. by rewrite He.
  - intros pre f post x Hsplit Hfx Hncar Hne Hpost.
    rewrite <- (renamed_not_car _ Hncar) in Hne |- *.
    rewrite Hsplit in Hreg |- *. split.
    + apply renameLoop_last_wins; try done.
      intros g Hg Ht.
      assert (He : extension g = extension f).
      { by rewrite <- (extension_renamed g), Ht, extension_renamed. }
      rewrite renamed_not_car by congruence. symmetry. by apply Hpost.
    + intros g Hg He Hgne.
      apply renameLoop_old_name_gone; [done| |].
      * apply elem_of_app. by left.
      * by rewrite renamed_not_car by congruence.
Qed.

End CompileIcon.

(** ** The relocation stage *)

Section MoveIconToApp.
Variable E : env.

Lemma ensureBackupDir_run rs s :
  ensureBackupDir rs s = (Return (withBackupDir rs), s).
Proof.
  unfold ensureBackupDir, withBackupDir, FS.mkdir, FS.err. run_m.
  by destruct (rs !! "oldFiles").
Qed.


(** the stage in terms of its two loops *)
Lemma moveIconToApp_run a s rs od o s' :
  resources (disk s) = Some (Dir rs) ->
  outputDir (disk s) = Some (Dir od) ->
  moveIconToApp E a s = (o, s') ->
  let back := backupLoop (listing E (map_to_list rs).*1) (withBackupDir rs) in
  let inst := installLoop (listing E (map_to_list od).*1) od back.2 in
  match back.1 with
  | Some e =>
      o = Raise e /\ resources (disk s') = Some (Dir back.2) /\
      outputDir (disk s') = Some (Dir od)
  | None =>
      o = match inst.1 with Some e => Raise e | None => Return tt end /\
      resources (disk s') = Some (Dir inst.2.2) /\
      outputDir (disk s') = Some (Dir inst.2.1)
  end.
Proof.
  intros Hrs Hod. unfold moveIconToApp, listdir, set_resources. run_m.
  destruct s as [[od0 ip rs0 cs] ic pr sp en]; simpl in *. subst od0 rs0. simpl.
  rewrite ensureBackupDir_run.
  destruct (backupLoop _ (withBackupDir rs)) as [[e|] rs2]; simpl.
  - intros [= <- <-]. done.
  - destruct (installLoop _ od rs2) as [[e|] [od' rs3]]; simpl;
      intros [= <- <-]; done.
Qed.




Ltac list_cases :=
  repeat case_decide;
  repeat match goal with
  | H : _ /\ _ |- _ => destruct H
  | H : _ ∈ [] |- _ => by apply elem_of_nil in H
  | H : _ ∈ _ :: _ |- _ => apply elem_of_cons in H as [->|H]
  end;
  try done;
  try (exfalso;
       match goal with
       | H : ~ _ |- _ => apply H; rewrite ?elem_of_cons; by auto
       end).

Lemma backupLoop_moves l rs b :
  NoDup l ->
  rs !! "oldFiles" = Some (Dir b) ->
  (forall f, f ∈ l -> f <> "oldFiles" ->
     PyStr.contains "oldFiles" f = false /\ b !! f = None /\ is_Some (rs !! f)) ->
  (backupLoop l rs).1 = None /\
  exists b',
    (backupLoop l rs).2 !! "oldFiles" = Some (Dir b') /\
    (forall j, b' !! j = if decide (j ∈ l /\ j <> "oldFiles") then rs !! j else b !! j) /\
    (forall k, k <> "oldFiles" ->
       (backupLoop l rs).2 !! k = if decide (k ∈ l) then None else rs !! k).
Proof.
  revert rs b. induction l as [|f rest IH]; intros rs b Hnd Hb Hl.
  - simpl. split; [done|]. exists b. split; [done|].
    split; intros; list_cases.
  - apply NoDup_cons in Hnd as [Hf Hnd]. simpl.
    destruct (decide (f = "oldFiles")) as [->|Hne].
    + change (PyStr.contains "oldFiles" "oldFiles") with true. simpl.
      destruct (IH rs b Hnd Hb) as (Hnone & b' & Hb' & Hin & Hout).
      { intros g Hg. apply Hl. by right. }
      split; [done|]. exists b'. split; [done|]. split.
      * intros j. rewrite Hin. list_cases.
      * intros k Hk. rewrite Hout by done. list_cases.
    + destruct (Hl f) as (Hc & Hbf & [n Hn]); [by left|done|].
      rewrite Hc. simpl.
      unfold FS.move_into_backup, FS.move. rewrite Hb.
      destruct (decide (f = "oldFiles")); [done|]. rewrite Hbf, Hn.
      destruct (IH (<["oldFiles" := Dir (<[f := n]> b)]> (delete f rs)) (<[f := n]> b) Hnd)
        as (Hnone & b' & Hb' & Hin & Hout).
      { apply lookup_insert_eq. }
      { intros g Hg Hgo. destruct (Hl g) as (? & ? & ?); [by right|done|].
        assert (g <> f) by (intros ->; done).
        split; [done|]. split; [by rewrite lookup_insert_ne|].
        by rewrite lookup_insert_ne, lookup_delete_ne. }
      split; [done|]. exists b'. split; [done|]. split.
      * intros j. rewrite Hin.
        destruct (decide (j = f)) as [->|Hjf].
        -- rewrite lookup_insert_eq. list_cases.
        -- rewrite (lookup_insert_ne b f) by done.
           list_cases. by rewrite lookup_insert_ne, lookup_delete_ne.
      * intros k Hk. rewrite Hout by done.
        rewrite lookup_insert_ne by done.
        destruct (decide (k = f)) as [->|Hkf].
        -- rewrite lookup_delete_eq. list_cases.
        -- rewrite lookup_delete_ne by done. list_cases.
Qed.

Lemma installLoop_moves l od rs :
  NoDup l ->
  (forall f, f ∈ l -> is_Some (od !! f) /\ rs !! f = None) ->
  (installLoop l od rs).1 = None /\
  (forall k, (installLoop l od rs).2.1 !! k = if decide (k ∈ l) then None else od !! k) /\
  (forall k, (installLoop l od rs).2.2 !! k = if decide (k ∈ l) then od !! k else rs !! k).
Proof.
  revert od rs. induction l as [|f rest IH]; intros od rs Hnd Hl.
  - simpl. split; [done|]. split; intros; list_cases.
  - apply NoDup_cons in Hnd as [Hf Hnd]. simpl.
    destruct (Hl f) as ([n Hn] & Hfree); [by left|].
    unfold FS.move. rewrite Hfree, Hn.
    destruct (IH (delete f od) (<[f := n]> rs) Hnd) as (Hnone & Hod & Hrs).
    { intros g Hg. destruct (Hl g) as (? & ?); [by right|].
      assert (g <> f) by (intros ->; done).
      by rewrite lookup_delete_ne, lookup_insert_ne. }
    split; [done|]. split; intros k.
    + rewrite Hod. destruct (decide (k = f)) as [->|Hkf].
      * rewrite lookup_delete_eq. list_cases.
      * rewrite lookup_delete_ne by done. list_cases.
    + rewrite Hrs. destruct (decide (k = f)) as [->|Hkf].
      * rewrite lookup_insert_eq. list_cases.
      * rewrite lookup_delete_ne, lookup_insert_ne by done. list_cases.
Qed.

(** On a bundle none of whose resources has a name containing "oldFiles"
    (the backup directory apart) or already present in the backup, and with
    no compiled artifact named oldFiles, the stage returns with Resources
    holding exactly the compiled artifacts and the backup directory, the
    backup holding what it held plus everything that was in Resources, and
    [./OutputDir] empty. *)
Lemma moveIconToApp_relocates a s rs od :
  listing_ok E ->
  resources (disk s) = Some (Dir rs) ->
  outputDir (disk s) = Some (Dir od) ->
  (forall x, rs !! "oldFiles" <> Some (File x)) ->
  (forall f, is_Some (rs !! f) -> f <> "oldFiles" ->
     PyStr.contains "oldFiles" f = false /\ backupOf rs !! f = None) ->
  od !! "oldFiles" = None ->
  exists s',
    moveIconToApp E a s = (Return tt, s') /\
    resources (disk s') =
      Some (Dir (<["oldFiles" := Dir (delete "oldFiles" rs ∪ backupOf rs)]> od)) /\
    outputDir (disk s') = Some (Dir ∅).
Proof.
  intros Hok Hrs Hod Hnf Hnames Hfree.
  destruct (moveIconToApp E a s) as [o s'] eqn:Hrun. exists s'.
  pose proof (moveIconToApp_run a s rs od o s' Hrs Hod Hrun) as H. cbv zeta in H.
  assert (Hb1 : withBackupDir rs !! "oldFiles" = Some (Dir (backupOf rs))).
  { unfold withBackupDir, backupOf.
    destruct (rs !! "oldFiles") as [[x|b]|] eqn:Hb; [by destruct (Hnf x)|done|].
    apply lookup_insert_eq. }
  assert (Hother : forall k, k <> "oldFiles" -> withBackupDir rs !! k = rs !! k).
  { intros k Hk. unfold withBackupDir.
    destruct (rs !! "oldFiles"); [done|]. by rewrite lookup_insert_ne. }
  destruct (backupLoop_moves (listingOf E rs) (withBackupDir rs) (backupOf rs))
    as (Hnone & b' & Hb' & Hin & Hout).
  { unfold listingOf. rewrite (Hok _). apply NoDup_fst_map_to_list. }
  { done. }
  { intros f Hf Hne. apply (listingOf_elem E rs f Hok) in Hf.
    destruct (Hnames f Hf Hne) as [? ?]. rewrite Hother by done. done. }
  unfold listingOf in Hnone, Hb', Hout. rewrite Hnone in H.
  destruct (installLoop_moves (listingOf E od) od
              (backupLoop (listing E (map_to_list rs).*1) (withBackupDir rs)).2)
    as (Hnone2 & Hod2 & Hrs2).
  { unfold listingOf. rewrite (Hok _). apply NoDup_fst_map_to_list. }
  { intros f Hf. apply (listingOf_elem E od f Hok) in Hf. split; [done|].
    assert (f <> "oldFiles") as Hne by (intros ->; rewrite Hfree in Hf; by destruct Hf).
    rewrite Hout by done. case_decide as Hl; [done|].
    rewrite Hother by done.
    destruct (rs !! f) eqn:Hrf; [|done]. exfalso. apply Hl.
    apply (listingOf_elem E rs f Hok). by rewrite Hrf. }
  unfold listingOf in Hnone2, Hod2, Hrs2. rewrite Hnone2 in H.
  destruct H as (-> & -> & ->). split; [done|]. split; f_equal; f_equal.
  - apply map_eq. intros k. rewrite Hrs2.
    destruct (decide (k = "oldFiles")) as [->|Hk].
    + rewrite lookup_insert_eq. case_decide as Hl.
      * apply (listingOf_elem E od _ Hok) in Hl. rewrite Hfree in Hl. by destruct Hl.
      * rewrite Hb'. f_equal. f_equal. apply map_eq. intros j. rewrite Hin.
        rewrite lookup_union. case_decide as Hj.
        -- destruct Hj as [Hj Hne]. rewrite Hother by done.
           apply (listingOf_elem E rs j Hok) in Hj as [n Hn].
           rewrite lookup_delete_ne by done. rewrite Hn.
           destruct (Hnames j) as [_ ->]; [by rewrite Hn|done|]. done.
        -- assert (delete "oldFiles" rs !! j = None) as ->.
           { destruct (decide (j = "oldFiles")) as [->|Hne]; [apply lookup_delete_eq|].
             rewrite lookup_delete_ne by done.
             destruct (rs !! j) eqn:Hrj; [|done]. exfalso. apply Hj. split; [|done].
             apply (listingOf_elem E rs j Hok). by rewrite Hrj. }
           by destruct (backupOf rs !! j).
    + rewrite lookup_insert_ne by done. case_decide as Hl; [done|].
      rewrite Hout by done. case_decide as Hl2; [|rewrite Hother by done].
      * destruct (od !! k) eqn:Hok'; [|done]. exfalso. apply Hl.
        apply (listingOf_elem E od k Hok). by rewrite Hok'.
      * destruct (od !! k) eqn:Hok'.
        -- exfalso. apply Hl. apply (listingOf_elem E od k Hok). by rewrite Hok'.
        -- destruct (rs !! k) eqn:Hrk; [|done]. exfalso. apply Hl2.
           apply (listingOf_elem E rs k Hok). by rewrite Hrk.
  - apply map_eq. intros k. rewrite Hod2, lookup_empty. case_decide as Hl; [done|].
    destruct (od !! k) eqn:Hok'; [|done]. exfalso. apply Hl.
    apply (listingOf_elem E od k Hok). by rewrite Hok'.
Qed.

End MoveIconToApp.

(** C2 fails on a resource whose name contains "oldFiles": the stage returns
    with that resource still in Resources, next to the backup directory
    that holds only the other one. *)
Lemma similar_name_not_backed_up :
  exists s' rs' b,
    moveIconToApp Scenario.tools "" (fresh Scenario.diskSimilarName) = (Return tt, s') /\
    resources (disk s') = Some (Dir rs') /\
    rs' !! "oldFiles_v1.icns" = Some (File "kept") /\
    rs' !! "oldFiles" = Some (Dir b) /\
    b !! "oldFiles_v1.icns" = None /\
    b !! "old.icns" = Some (File "old").
Proof.
  eexists _, _, _. split; [vm_compute; reflexivity|].
  split; [reflexivity|]. repeat split; vm_compute; reflexivity.
Qed.

(** ** The properties on the Rocket scenario *)

Lemma unparseable_metadata_halts_witness :
  infoPlist Scenario.diskBadPlist = Some (Unparseable Scenario.invalidFile) /\
  halted_before_relocation Scenario.diskBadPlist
    (run Scenario.tools Scenario.args Scenario.diskBadPlist).1
    (run Scenario.tools Scenario.args Scenario.diskBadPlist).2.
Proof.
  split; [reflexivity|].
  apply (unparseable_metadata_halts Scenario.tools Scenario.args
           Scenario.diskBadPlist Scenario.invalidFile eq_refl).
  by destruct (run Scenario.tools Scenario.args Scenario.diskBadPlist).
Defined.

(** C1 as stated fails: with an icon path that does not resolve,
    [updateInfoPlist] is entered all the same. *)
Lemma unresolvable_icon_still_enters_updateInfoPlist :
  path_resolve Scenario.toolsIconUnresolvable (iconBundlePath Scenario.args)
    = Some Scenario.loopError /\
  caught Scenario.loopError = true /\
  entered (run Scenario.toolsIconUnresolvable Scenario.args Scenario.disk0).2
    = [ValidateData; CompileIcon; UpdateInfoPlist].
Proof. split; [reflexivity|]. split; reflexivity. Qed.

Lemma unresolvable_icon_halts_witness :
  path_resolve Scenario.toolsIconUnresolvable (iconBundlePath Scenario.args)
    = Some Scenario.loopError /\
  caught Scenario.loopError = true /\
  halted_before_relocation Scenario.disk0
    (run Scenario.toolsIconUnresolvable Scenario.args Scenario.disk0).1
    (run Scenario.toolsIconUnresolvable Scenario.args Scenario.disk0).2.
Proof.
  split; [reflexivity|]. split; [reflexivity|].
  apply (unresolvable_icon_halts Scenario.toolsIconUnresolvable Scenario.args
           Scenario.disk0 Scenario.loopError eq_refl eq_refl).
  by destruct (run Scenario.toolsIconUnresolvable Scenario.args Scenario.disk0).
Defined.

Lemma icon_identifier_is_basename_stem_witness :
  deriveIconName "icons/Rocket.icon" = Some "Rocket" /\
  exists m,
    infoPlist (disk (run Scenario.tools Scenario.args Scenario.disk0).2)
      = Some (Parsed (PDict m)) /\
    m !! "CFBundleIconName" = Some (PStr "Rocket").
Proof.
  destruct (icon_identifier_is_basename_stem Scenario.tools Scenario.args
              Scenario.disk0 "icons" "Rocket.icon" "Rocket" "icon")
    as (Hname & Hrun & _).
  - right; reflexivity.
  - reflexivity.
  - right; reflexivity.
  - reflexivity.
  - split; [exact Hname|].
    assert (Hr : exists s', run Scenario.tools Scenario.args Scenario.disk0 = (Return tt, s'))
      by (eexists; vm_compute; reflexivity).
    destruct Hr as [s' Hr].
    assert (Hexact : forall m,
              infoPlist Scenario.disk0 = Some (Parsed (PDict m)) ->
              plist_dump Scenario.tools (PDict (<["CFBundleIconName" := PStr "Rocket"]> m))
              = Whole (Parsed (PDict (<["CFBundleIconName" := PStr "Rocket"]> m))))
      by (intros m [= <-]; vm_compute; reflexivity).
    destruct (Hrun s' Hr) as (m & f & Hm & Hdump & _ & Hkey).
    rewrite Hr. simpl. apply Hkey.
    rewrite (Hexact m Hm) in Hdump. by injection Hdump.
Defined.

(** C4 as stated fails: for an icon bundle whose name holds a carriage
    return the run returns, and the key reads the name with a line feed in
    its place, which is not the identifier derived. *)
Lemma carriage_return_in_identifier_is_rewritten :
  exists s' m,
    deriveIconName (iconBundlePath Cases.argsReturnInName) = Some Cases.returnInName /\
    run Scenario.tools Cases.argsReturnInName Scenario.disk0 = (Return tt, s') /\
    infoPlist (disk s') = Some (Parsed (PDict m)) /\
    m !! "CFBundleIconName" = Some (PStr Cases.lineFeedInName) /\
    Cases.lineFeedInName <> Cases.returnInName.
Proof.
  eexists _, _. split; [vm_compute; reflexivity|].
  split; [vm_compute; reflexivity|]. split; [reflexivity|].
  split; [vm_compute; reflexivity|]. discriminate.
Qed.



Lemma no_codesign_no_mutation_witness :
  which Scenario.toolsNoCodesign "codesign" = None /\
  codeSignature (disk (resignAppForLocalUse Scenario.toolsNoCodesign Scenario.args
                         "" "-" Scenario.start).2)
    = codeSignature (disk Scenario.start).
Proof.
  split; [reflexivity|].
  destruct (resignAppForLocalUse Scenario.toolsNoCodesign Scenario.args "" "-"
              Scenario.start) as [o s'] eqn:Hrun.
  exact (proj1 (proj2 (no_codesign_no_mutation Scenario.toolsNoCodesign Scenario.args
                         "" "-" Scenario.start eq_refl o s' Hrun))).
Defined.

(** C9 as stated fails: a successful check prints nothing. *)
Lemma validatePath_silent_on_success :
  validatePath Scenario.tools Scenario.args (StrPath "MyApp.app/Contents") Scenario.start
    = (Return true, Scenario.start) /\
  printed Scenario.start = [].
Proof. split; reflexivity. Qed.

Lemma validatePath_reports_failures_only_witness :
  validatePath Scenario.toolsIconUnresolvable Scenario.args
    (StrPath "icons/Rocket.icon") Scenario.start
  = (Return false,
     add_printed ["Error finding the path icons/Rocket.icon"] Scenario.start).
Proof.
  apply (proj1 (proj2 (validatePath_reports_failures_only
                         Scenario.toolsIconUnresolvable Scenario.args
                         (StrPath "icons/Rocket.icon") Scenario.start))
           Scenario.loopError eq_refl eq_refl).
Defined.

Lemma tools_listing_ok : listing_ok Scenario.tools.
Proof. intros l. reflexivity. Qed.

Lemma toolsTwoImages_listing_ok : listing_ok Scenario.toolsTwoImages.
Proof. intros l. reflexivity. Qed.

Lemma lookup_insert_is_Some_inv {A} (m : gmap string A) k x j :
  is_Some (<[k := x]> m !! j) -> j = k \/ is_Some (m !! j).
Proof.
  rewrite lookup_insert. destruct (decide (k = j)); [by left|by right].
Qed.

Lemma compiled_files_renamed_witness :
  exists s' d',
    compileIcon Scenario.tools Scenario.args "icons/Rocket.icon" Scenario.start
      = (Return tt, s') /\
    outputDir (disk s') = Some (Dir d') /\
    d' !! "Assets.car" = Some (File "car") /\
    d' !! "AppIcon.icns" = Some (File "icns") /\
    d' !! "Rocket.icns" = None.
Proof.
  destruct (compiled_files_renamed Scenario.tools Scenario.args "icons/Rocket.icon"
              Scenario.start "Rocket" (Completed 0 "" "")
              (<["Assets.car" := File "car"]> (<["Rocket.icns" := File "icns"]> ∅)))
    as (s' & d' & Hrun & Hdir & Hall).
  - exact tools_listing_ok.
  - reflexivity.
  - discriminate.
  - reflexivity.
  - reflexivity.
  - intros k n Hk.
    assert (Hs : is_Some (<["Assets.car" := File "car"]>
                            (<["Rocket.icns" := File "icns"]> (∅ : gmap string node)) !! k))
      by by rewrite Hk.
    apply lookup_insert_is_Some_inv in Hs as [->|Hs]; [by simplify_map_eq|].
    apply lookup_insert_is_Some_inv in Hs as [->|Hs]; [by simplify_map_eq|].
    rewrite lookup_empty in Hs. by destruct Hs.
  - exists s', d'. split; [exact Hrun|]. split; [exact Hdir|].
    destruct (Hall "Assets.car" "car" eq_refl) as [Hcar _].
    destruct (Hall "Rocket.icns" "icns" eq_refl) as [_ Hicns].
    destruct Hicns as (_ & Hgone & Hdata); [discriminate|].
    split; [by apply Hcar|]. split; [|by apply Hgone].
    apply Hdata. intros g Hg Hext.
    apply lookup_insert_is_Some_inv in Hg as [->|Hg]; [discriminate|].
    apply lookup_insert_is_Some_inv in Hg as [->|Hg]; [done|].
    rewrite lookup_empty in Hg. by destruct Hg.
Defined.

Lemma same_extension_files_collapse_witness :
  exists s' d',
    compileIcon Scenario.toolsTwoImages Scenario.args "icons/Rocket.icon" Scenario.start
      = (Return tt, s') /\
    outputDir (disk s') = Some (Dir d') /\
    d' !! "AppIcon.png" = Some (File "large") /\
    d' !! "Rocket.png" = None.
Proof.
  destruct (same_extension_files_collapse Scenario.toolsTwoImages Scenario.args
              "icons/Rocket.icon" Scenario.start "Rocket" (Completed 0 "" "")
              (<["Assets.car" := File "car"]>
                 (<["Rocket.png" := File "small"]> (<["Rocket@2x.png" := File "large"]> ∅))))
    as (s' & d' & Hrun & Hdir & _ & _ & Hlast).
  - exact toolsTwoImages_listing_ok.
  - reflexivity.
  - discriminate.
  - reflexivity.
  - reflexivity.
  - intros k n Hk.
    assert (Hs : is_Some (<["Assets.car" := File "car"]>
                            (<["Rocket.png" := File "small"]>
                               (<["Rocket@2x.png" := File "large"]>
                                  (∅ : gmap string node))) !! k))
      by by rewrite Hk.
    apply lookup_insert_is_Some_inv in Hs as [->|Hs]; [by simplify_map_eq|].
    apply lookup_insert_is_Some_inv in Hs as [->|Hs]; [by simplify_map_eq|].
    apply lookup_insert_is_Some_inv in Hs as [->|Hs]; [by simplify_map_eq|].
    rewrite lookup_empty in Hs. by destruct Hs.
  - exists s', d'. split; [exact Hrun|]. split; [exact Hdir|].
    destruct (Hlast ["Assets.car"; "Rocket.png"] "Rocket@2x.png" [] "large")
      as [Hdata Hgone].
    + vm_compute. reflexivity.
    + reflexivity.
    + discriminate.
    + discriminate.
    + intros g Hg. exfalso. exact (not_elem_of_nil g Hg).
    + assert (Hk : "AppIcon" +:+ extension "Rocket@2x.png" = "AppIcon.png")
        by (vm_compute; reflexivity).
      rewrite Hk in Hdata. split; [exact Hdata|].
      apply Hgone; [|vm_compute; reflexivity|discriminate].
      right. left.
Defined.


(** * Further properties *)

(** ** The orchestrator and its first stages *)

Section Orchestration.
Variable E : env.
Variable self : cfg.

Ltac grind :=
  repeat (simpl in *; rewrite ?logMessage_run, ?validatePath_run in *;
          try case_match; simplify_eq).

(** the five stages in the order [__init__] calls them *)
Lemma stages_run_in_order d :
  entered (run E self d).2 `prefix_of`
    [ValidateData; CompileIcon; UpdateInfoPlist; MoveIconToApp; ResignAppForLocalUse] /\
  (exists rest, entered (run E self d).2 = ValidateData :: rest) /\
  ((run E self d).1 = Return tt ->
   entered (run E self d).2 =
     [ValidateData; CompileIcon; UpdateInfoPlist; MoveIconToApp; ResignAppForLocalUse]).
Proof.
  destruct (run E self d) as [o s'] eqn:Hrun. simpl.
  unfold run in Hrun. rewrite init_run in Hrun.
  destruct (validateData E self "" (fresh d)) as [[[]|e1] s1] eqn:H1;
    destruct (validateData_frame _ _ _ _ _ _ H1) as (_&_&Hv); simpl in Hv.
  2:{ injection Hrun as <- <-. rewrite Hv.
      split; [by eexists|]. split; [by eexists|done]. }
  destruct (compileIcon E self (iconBundlePath self) s1) as [[[]|e2] s2] eqn:H2;
    destruct (compileIcon_frame _ _ _ _ _ _ H2) as (_&_&_&Hc&_); rewrite Hv in Hc.
  2:{ injection Hrun as <- <-. rewrite Hc.
      split; [by eexists|]. split; [by eexists|done]. }
  destruct (updateInfoPlist E _ "" s2) as [[[]|e3] s3] eqn:H3;
    destruct (updateInfoPlist_frame E _ _ _ _ _ H3) as (_&_&_&_&_&_&Hu); rewrite Hc in Hu.
  2:{ injection Hrun as <- <-. rewrite Hu.
      split; [by eexists|]. split; [by eexists|done]. }
  destruct (moveIconToApp E "" s3) as [[[]|e4] s4] eqn:H4;
    destruct (moveIconToApp_frame _ _ _ _ _ H4) as (_&_&_&_&_&Hm); rewrite Hu in Hm.
  2:{ injection Hrun as <- <-. rewrite Hm.
      split; [by eexists|]. split; [by eexists|done]. }
  destruct (resignAppForLocalUse E self "" "-" s4) as [[b|e5] s5] eqn:H5;
    destruct (resignAppForLocalUse_frame _ _ _ _ _ _ _ H5) as (_&_&_&_&Hr);
    rewrite Hm in Hr; injection Hrun as <- <-; rewrite Hr;
    (split; [by exists []|]); (split; [by eexists|done]).
Qed.

(** [actool] cannot be started: the constructor raises out of
    [validateData] with the disk as it found it *)
Lemma missing_actool_stops_run d c e :
  run_clear E = inr c ->
  run_actool_bare E = inl e ->
  run E self d =
  (Raise e, State d None [] [["clear"]; ["actool"]] [ValidateData]).
Proof.
  intros Hc Ha. unfold run, init, validateData, clearScreen. run_m.
  simpl. rewrite Hc. simpl. rewrite Ha. done.
Qed.

Lemma validateData_returns a s c1 c2 :
  run_clear E = inr c1 ->
  run_actool_bare E = inr c2 ->
  (forall e, path_resolve E ((if String.eqb a "" then appBundlePath self else a)
                               +:+ "/Contents") = Some e -> caught e = true) ->
  exists s',
    validateData E self a s = (Return tt, s') /\
    disk s' = disk s /\ iconName s' = iconName s /\
    spawned s' = spawned s ++ [["clear"]; ["actool"]] /\
    exists msg rest, printed s' = printed s ++ msg :: rest.
Proof.
  intros Hc Ha Hp. unfold validateData, clearScreen. run_m. simpl.
  rewrite Hc. simpl. rewrite Ha. simpl.
  destruct (String.eqb (proc_stderr c2) _); rewrite logMessage_run; simpl;
    rewrite validatePath_run; simpl;
    (destruct (path_resolve E _) as [e|] eqn:Hr;
     [rewrite (Hp e eq_refl)|]); simpl;
    eexists; (split; [reflexivity|]); simpl;
    rewrite <- ?app_assoc; repeat split; unfold logLines; simpl; eauto.
Qed.

(** neither outcome of the actool check nor a bundle path that does not
    resolve stops [validateData] *)
Lemma validateData_checks_do_not_halt a s c1 c2 :
  run_clear E = inr c1 ->
  run_actool_bare E = inr c2 ->
  (forall e, path_resolve E ((if String.eqb a "" then appBundlePath self else a)
                               +:+ "/Contents") = Some e -> caught e = true) ->
  exists s',
    validateData E self a s = (Return tt, s') /\
    disk s' = disk s /\ iconName s' = iconName s /\
    spawned s' = spawned s ++ [["clear"]; ["actool"]] /\
    exists msg rest, printed s' = printed s ++ msg :: rest.
Proof. exact (validateData_returns a s c1 c2). Qed.

End Orchestration.

Section IconNames.
Import PyStr.

(** a character that does not occur in a string occurs in none of its
    fields *)
Lemma split_fields_lack c sep s w :
  rfind c s = None -> w ∈ split sep s -> rfind c w = None.
Proof.
  revert w. induction s as [|a s IH]; intros w; simpl.
  - intros _ Hw. apply list_elem_of_singleton in Hw as ->. done.
  - destruct (rfind c s) eqn:Hr; [done|].
    destruct (Ascii.eqb a c) eqn:Hac; [done|]. intros _.
    destruct (Ascii.eqb a sep).
    + intros Hw. apply elem_of_cons in Hw as [->|Hw]; [done|]. by apply IH.
    + destruct (split sep s) as [|x xs] eqn:Hs.
      * intros Hw. apply list_elem_of_singleton in Hw as ->. simpl. by rewrite Hac.
      * intros Hw. apply elem_of_cons in Hw as [->|Hw].
        -- simpl. rewrite (IH x); [by rewrite Hac|done|by left].
        -- apply IH; [done|by right].
Qed.

(** no field of a split holds the separator *)
Lemma split_fields_lack_sep sep s w :
  w ∈ split sep s -> rfind sep w = None.
Proof.
  revert w. induction s as [|a s IH]; intros w; simpl.
  - intros Hw. apply list_elem_of_singleton in Hw as ->. done.
  - destruct (Ascii.eqb a sep) eqn:Ha.
    + intros Hw. apply elem_of_cons in Hw as [->|Hw]; [done|]. by apply IH.
    + destruct (split sep s) as [|x xs] eqn:Hs.
      * intros Hw. apply list_elem_of_singleton in Hw as ->. simpl. by rewrite Ha.
      * intros Hw. apply elem_of_cons in Hw as [->|Hw].
        -- simpl. rewrite (IH x); [by rewrite Ha|by left].
        -- apply IH. by right.
Qed.

(** the identifier handed to [actool] and written to Info.plist never
    holds a path separator or a dot *)
Lemma deriveIconName_lacks_separators p n :
  deriveIconName p = Some n -> rfind "/" n = None /\ rfind "." n = None.
Proof.
  unfold deriveIconName, item_last, item_first.
  destruct (last (split "/" p)) as [b|] eqn:Hl; [|done]. simpl.
  intros Hh.
  assert (Hb : rfind "/" b = None).
  { apply (split_fields_lack_sep "/" p). apply last_Some_elem_of. done. }
  assert (Hn : n ∈ split "." b).
  { destruct (split "." b); [done|]. injection Hh as ->. by left. }
  split; [by apply (split_fields_lack "/" "." b)|by apply (split_fields_lack_sep "." b)].
Qed.

(** a path that ends in "/" or whose base name starts with a dot yields
    the empty identifier *)
Lemma deriveIconName_empty dir rest :
  rfind "/" rest = None ->
  deriveIconName (dir +:+ "/") = Some "" /\
  deriveIconName (dir +:+ String "/" (String "." rest)) = Some "" /\
  deriveIconName (String "." rest) = Some "".
Proof.
  intros Hr. unfold deriveIconName, item_last, item_first. split; [|split].
  - rewrite (split_last_app "/" dir ""); done.
  - rewrite (split_last_app "/" dir (String "." rest)); [done|].
    simpl. by rewrite Hr.
  - rewrite split_no_sep; [done|]. simpl. by rewrite Hr.
Qed.

End IconNames.

Section CompileIconMore.
Variable E : env.
Variable self : cfg.

(** the scratch directory is emptied before the path is looked at: a path
    that fails validation still costs the previous contents of
    [./OutputDir] *)
Lemma compileIcon_resets_output_dir p s e :
  path_resolve E p = Some e -> caught e = true ->
  (forall x, outputDir (disk s) <> Some (File x)) ->
  exists s',
    compileIcon E self p s = (Return tt, s') /\
    outputDir (disk s') = Some (Dir ∅) /\
    iconName s' = iconName s /\
    spawned s' = spawned s.
Proof.
  intros Hp Hc Hf. unfold compileIcon. run_m.
  destruct s as [[od ip rs cs] ic pr sp en]; simpl in *.
  destruct od as [[x|c]|]; simpl.
  - by destruct (Hf x).
  - rewrite validatePath_run. simpl. rewrite Hp, Hc. simpl. eauto.
  - rewrite validatePath_run. simpl. rewrite Hp, Hc. simpl. eauto.
Qed.

(** [./OutputDir] is a regular file: [shutil.rmtree] raises and nothing
    has been touched *)
Lemma compileIcon_output_dir_is_file p s x :
  outputDir (disk s) = Some (File x) ->
  exists e,
    compileIcon E self p s = (Raise e, add_entered CompileIcon s) /\
    exn_type e = NotADirectoryError.
Proof.
  intros Hx. unfold compileIcon. run_m.
  destruct s as [[od ip rs cs] ic pr sp en]; simpl in *. subst od. simpl.
  eexists. split; reflexivity.
Qed.

(** on a path that resolves the stage records the identifier, starts
    [actool] once with it and reports the compilation as done, whatever
    exit status and output [actool] returned *)
Lemma compileIcon_ignores_exit_status p s name r produced :
  path_resolve E p = None ->
  (forall x, outputDir (disk s) <> Some (File x)) ->
  deriveIconName p = Some name ->
  run_actool E (actoolArgs p name) ∅ = inr (r, produced) ->
  iconName (compileIcon E self p s).2 = Some name /\
  spawned (compileIcon E self p s).2 = spawned s ++ [actoolArgs p name] /\
  printed (compileIcon E self p s).2 =
    printed s ++
    logLines self "Icon compiled in ./OutputDir"
      ("stdout: " +:+ proc_stdout r +:+ newline +:+ newline +:+
       "stderr: " +:+ proc_stderr r).
Proof.
  intros Hp Hf Hname Hrun. unfold compileIcon, listdir. run_m.
  destruct s as [[od ip rs cs] ic pr sp en]; simpl in *.
  assert (Hod : match od with Some (File _) => False | _ => True end).
  { destruct od as [[x|c]|]; try done. by apply (Hf x). }
  destruct od as [[x|c]|]; [done| |].
  all: simpl; rewrite validatePath_run; simpl; rewrite Hp, Hname; simpl;
    rewrite Hrun; simpl; rewrite logMessage_run; simpl;
    destruct (renameLoop _ produced) as [[e|] d']; simpl; done.
Qed.

End CompileIconMore.

Section RenameLoopMore.

(** once the loop has run over a full listing of regular files, running
    it again over any listing of what it left renames nothing *)
Lemma renameLoop_second_pass files d files2 :
  regular_listing files d ->
  (forall j, is_Some (d !! j) -> j ∈ files) ->
  (forall f, f ∈ files2 -> is_Some ((renameLoop files d).2 !! f)) ->
  renameLoop files2 (renameLoop files d).2 = (None, (renameLoop files d).2).
Proof.
  intros Hreg Hfull.
  induction files2 as [|f rest IH]; intros Hin; [done|].
  rewrite renameLoop_cons.
  assert (Hfix : renamed f = f).
  { apply (renameLoop_names_fixed files d f Hreg Hfull). apply Hin. by left. }
  assert (Hrest : renameLoop rest (renameLoop files d).2 = (None, (renameLoop files d).2)).
  { apply IH. intros g Hg. apply Hin. by right. }
  destruct (String.eqb (extension f) ".car"); [done|].
  rewrite Hfix. unfold FS.rename.
  destruct (Hin f) as [n ->]; [by left|].
  by destruct (decide (f = f)).
Qed.

(** no name the loop leaves is the backup directory's *)
Lemma renameLoop_leaves_no_oldFiles files d :
  regular_listing files d ->
  (forall j, is_Some (d !! j) -> j ∈ files) ->
  (renameLoop files d).2 !! "oldFiles" = None.
Proof.
  intros Hreg Hfull.
  destruct ((renameLoop files d).2 !! "oldFiles") as [n|] eqn:Hn; [|done].
  assert (Hfix : renamed "oldFiles" = "oldFiles").
  { apply (renameLoop_names_fixed files d _ Hreg Hfull). by rewrite Hn. }
  discriminate Hfix.
Qed.

End RenameLoopMore.

Section ArtifactNames.
Variable E : env.

(** renaming is stable: a second pass over the renamed artifacts, in any
    listing order, renames nothing and raises nothing *)
Lemma renaming_is_stable produced :
  listing_ok E ->
  (forall k n, produced !! k = Some n -> FS.is_file n = true) ->
  renameLoop (listingOf E (artifacts E produced)) (artifacts E produced)
    = (None, artifacts E produced).
Proof.
  intros Hok Hreg. unfold artifacts.
  apply renameLoop_second_pass.
  - by apply listingOf_regular.
  - intros j Hj. by apply listingOf_elem.
  - intros f Hf. by apply (listingOf_elem E _ f Hok).
Qed.

Lemma artifacts_names produced :
  listing_ok E ->
  (forall k n, produced !! k = Some n -> FS.is_file n = true) ->
  artifacts E produced !! "oldFiles" = None /\
  (forall k, is_Some (artifacts E produced !! k) ->
     extension k = ".car" \/ k = "AppIcon" +:+ extension k).
Proof.
  intros Hok Hreg. unfold artifacts. split.
  - apply renameLoop_leaves_no_oldFiles; [by apply listingOf_regular|].
    intros j Hj. by apply listingOf_elem.
  - intros k Hk.
    destruct (String.eqb_spec (extension k) ".car") as [|Hne]; [by left|right].
    rewrite <- (renamed_not_car _ Hne). symmetry.
    apply (renameLoop_names_fixed (listingOf E produced) produced k);
      [by apply listingOf_regular | intros j Hj; by apply listingOf_elem | done].
Qed.

(** no renamed artifact is named like the backup directory, so the
    relocation stage never drops an artifact into the backup *)
Lemma artifacts_avoid_backup_name produced :
  listing_ok E ->
  (forall k n, produced !! k = Some n -> FS.is_file n = true) ->
  artifacts E produced !! "oldFiles" = None /\
  (forall k, is_Some (artifacts E produced !! k) ->
     extension k = ".car" \/ k = "AppIcon" +:+ extension k).
Proof. exact (artifacts_names produced). Qed.

End ArtifactNames.

(** the [cliBased] argument is stored and never read: a handler built
    with [cliBased=False] still prints every message, with the verbose
    line when [verboseErrors] is set, and the whole run is the same for
    both values *)
Lemma cliBased_is_inert E app icon verbose d simple detail s :
  run E (Cfg app icon true verbose) d = run E (Cfg app icon false verbose) d /\
  logMessage (Cfg app icon false verbose) simple detail s =
    (Py.Return tt,
     add_printed (simple :: if verbose && negb (String.eqb detail "")
                            then ["    " +:+ detail] else []) s).
Proof. split; [reflexivity|]. by rewrite logMessage_run. Qed.

Section MetadataMore.
Variable E : env.

(** When [updateInfoPlist] raises, either it has written nothing, or the
    exception is the serializer's: then the metadata file, emptied when it
    was opened, is left unparseable and the rest of the disk is as it
    was. *)
Lemma updateInfoPlist_raise_leaves_or_cuts p fb s e s' :
  updateInfoPlist E p fb s = (Raise e, s') ->
  disk s' = disk s \/
  exists m n unreadable,
    infoPlist (disk s) = Some (Parsed (PDict m)) /\
    iconName s = Some n /\
    plist_dump E (PDict (edited fb n m)) = CutShort e unreadable /\
    disk s' = Fs (outputDir (disk s)) (Some (Unparseable unreadable))
                 (resources (disk s)) (codeSignature (disk s)).
Proof.
  intros H.
  destruct (iconName s) as [n|] eqn:Hn.
  2:{ destruct (updateInfoPlist_no_iconName E p fb s Hn) as [e' He].
      rewrite He in H. left. by simplify_eq. }
  destruct (infoPlist (disk s)) as [[u|root]|] eqn:Hp.
  - rewrite (updateInfoPlist_unparseable E p fb s u Hp) in H. left. by simplify_eq.
  - destruct root as [x|z|x|b|x|x|items|m];
      try (left; revert H; unfold updateInfoPlist, setitem; run_m;
           destruct s as [dk ic pr sp en]; simpl in *; subst;
           rewrite Hp; simpl; by intros [= <- <-]).
    rewrite (updateInfoPlist_writes E p fb s m n Hp Hn) in H.
    destruct (plist_dump E _) as [e' u|f] eqn:Hd; [|done].
    injection H as <- <-. right. by exists m, n, u.
  - left. revert H. unfold updateInfoPlist. run_m.
    destruct s as [dk ic pr sp en]; simpl in *; subst.
    rewrite Hp. simpl. by intros [= <- <-].
Qed.

(** a root value that is not a dictionary is refused with TypeError once
    the identifier is known, a missing file with FileNotFoundError *)
Lemma updateInfoPlist_refuses p fb s n :
  iconName s = Some n ->
  (forall root, infoPlist (disk s) = Some (Parsed root) ->
     (forall m, root <> PDict m) ->
     exists e, updateInfoPlist E p fb s = (Raise e, add_entered UpdateInfoPlist s) /\
               exn_type e = TypeError) /\
  (infoPlist (disk s) = None ->
     exists e, updateInfoPlist E p fb s = (Raise e, add_entered UpdateInfoPlist s) /\
               exn_type e = FileNotFoundError).
Proof.
  intros Hn. split.
  - intros root Hr Hnd. unfold updateInfoPlist, setitem. run_m.
    destruct s as [dk ic pr sp en]; simpl in *; subst.
    unfold add_entered; simpl. rewrite Hr. simpl.
    destruct root; simpl; try (eexists; split; reflexivity).
    by destruct (Hnd entries).
  - intros Hr. unfold updateInfoPlist. run_m.
    destruct s as [dk ic pr sp en]; simpl in *; subst.
    unfold add_entered; simpl. rewrite Hr. simpl. eexists; split; reflexivity.
Qed.

Lemma edited_idem fb n m : edited fb n (edited fb n m) = edited fb n m.
Proof.
  unfold edited. destruct (negb (String.eqb fb "")); apply map_eq; intros k;
    rewrite !lookup_insert; repeat case_decide; done.
Qed.

(** A second edit with the same identifier and fallback depends on what
    the first one left: when the file reads back as it was written, the
    second edit returns and leaves the disk as the first did; when the
    serializer returned but the file does not parse, the first edit
    returns all the same and the second raises the parser's exception. *)
Lemma updateInfoPlist_twice p fb s m n :
  infoPlist (disk s) = Some (Parsed (PDict m)) ->
  iconName s = Some n ->
  (plist_dump E (PDict (edited fb n m)) = Whole (Parsed (PDict (edited fb n m))) ->
   exists s1 s2,
     updateInfoPlist E p fb s = (Return tt, s1) /\
     updateInfoPlist E p fb s1 = (Return tt, s2) /\
     disk s2 = disk s1) /\
  (forall u, plist_dump E (PDict (edited fb n m)) = Whole (Unparseable u) ->
   exists s1,
     updateInfoPlist E p fb s = (Return tt, s1) /\
     updateInfoPlist E p fb s1 = (Raise u, add_entered UpdateInfoPlist s1)).
Proof.
  intros Hm Hi. rewrite (updateInfoPlist_writes E p fb s m n Hm Hi). split.
  - intros Hd. rewrite Hd.
    set (s1 := with_disk _ (add_entered UpdateInfoPlist s)).
    assert (Hm1 : infoPlist (disk s1) = Some (Parsed (PDict (edited fb n m)))) by done.
    assert (Hi1 : iconName s1 = Some n) by done.
    exists s1. eexists. split; [reflexivity|].
    rewrite (updateInfoPlist_writes E p fb s1 _ n Hm1 Hi1), edited_idem, Hd.
    split; reflexivity.
  - intros u Hd. rewrite Hd.
    set (s1 := with_disk _ (add_entered UpdateInfoPlist s)).
    exists s1. split; [reflexivity|].
    by apply updateInfoPlist_unparseable.
Qed.

End MetadataMore.

Section ResignMore.
Variable E : env.
Variable self : cfg.

(** a bundle path that does not resolve: False, a message, and nothing
    looked up, removed or started *)
Lemma resign_unresolvable_bundle a i s e :
  path_resolve E (if String.eqb a "" then appBundlePath self else a) = Some e ->
  caught e = true ->
  exists s',
    resignAppForLocalUse E self a i s = (Return false, s') /\
    disk s' = disk s /\ spawned s' = spawned s /\
    exists rest,
      printed s' = printed s ++
        ("Error finding the path " +:+
           pathlib_str E (if String.eqb a "" then appBundlePath self else a)) :: rest.
Proof.
  intros Hp Hc. unfold resignAppForLocalUse. run_m.
  rewrite validatePath_run. simpl. rewrite Hp, Hc. simpl.
  eexists. split; [reflexivity|]. simpl. repeat split. unfold logLines. eauto.
Qed.

Lemma resign_with_codesign a i s cp r sig :
  let bundle := if String.eqb a "" then appBundlePath self else a in
  path_resolve E bundle = None ->
  found (which E "codesign") = Some cp ->
  (forall xp, found (which E "xattr") = Some xp ->
     exists c, run_xattr E [xp; "-cr"; pathlib_str E bundle] = inr c) ->
  run_codesign E (codesignArgs E cp bundle i) (withoutSignature (disk s)) = inr (r, sig) ->
  exists s',
    resignAppForLocalUse E self a i s = (Return (Z.eqb (returncode r) 0), s') /\
    codeSignature (disk s') = sig /\
    last (spawned s') = Some (codesignArgs E cp bundle i) /\
    last (printed s') =
      last (logLines self
              (if Z.eqb (returncode r) 0 then "App re-signed for local use."
               else "Failed to re-sign the application.")
              ("stdout: " +:+ proc_stdout r +:+ newline +:+ newline +:+
               "stderr: " +:+ proc_stderr r)).
Proof.
  intros bundle Hp Hw Hx Hrun. unfold resignAppForLocalUse. run_m.
  fold bundle. rewrite validatePath_run. simpl. fold bundle. rewrite Hp. simpl.
  rewrite Hw. unfold codesignArgs, withoutSignature in Hrun.
  destruct s as [[od ip rs cs] ic pr sp en]; simpl in *.
  destruct (found (which E "xattr")) as [xp|] eqn:Hxp.
  - destruct (Hx xp eq_refl) as [c Hc].
    destruct cs as [[x|c0]|]; simpl in *; rewrite Hc; simpl; rewrite Hrun; simpl;
      destruct (Z.eqb (returncode r) 0); simpl; rewrite logMessage_run; simpl;
      (eexists; split; [reflexivity|]); simpl;
      (split; [done|]); (split; [by rewrite last_snoc|]);
      unfold logLines; destruct (verboseErrors self && _); simpl;
      by rewrite ?last_app.
  - destruct cs as [[x|c0]|]; simpl in *; rewrite Hrun; simpl;
      destruct (Z.eqb (returncode r) 0); simpl; rewrite logMessage_run; simpl;
      (eexists; split; [reflexivity|]); simpl;
      (split; [done|]); (split; [by rewrite last_snoc|]);
      unfold logLines; destruct (verboseErrors self && _); simpl;
      by rewrite ?last_app.
Qed.

(** with [codesign] found, the result is its exit status: the old
    signature directory is removed before it starts, [xattr]'s own exit
    status is ignored, and what [codesign] leaves is the bundle's
    signature, also when it failed *)
Lemma resign_result_is_codesign_status a i s cp r sig :
  let bundle := if String.eqb a "" then appBundlePath self else a in
  path_resolve E bundle = None ->
  found (which E "codesign") = Some cp ->
  (forall xp, found (which E "xattr") = Some xp ->
     exists c, run_xattr E [xp; "-cr"; pathlib_str E bundle] = inr c) ->
  run_codesign E (codesignArgs E cp bundle i) (withoutSignature (disk s)) = inr (r, sig) ->
  exists s',
    resignAppForLocalUse E self a i s = (Return (Z.eqb (returncode r) 0), s') /\
    codeSignature (disk s') = sig /\
    last (spawned s') = Some (codesignArgs E cp bundle i) /\
    last (printed s') =
      last (logLines self
              (if Z.eqb (returncode r) 0 then "App re-signed for local use."
               else "Failed to re-sign the application.")
              ("stdout: " +:+ proc_stdout r +:+ newline +:+ newline +:+
               "stderr: " +:+ proc_stderr r)).
Proof. exact (resign_with_codesign a i s cp r sig). Qed.

End ResignMore.

Ltac list_cases :=
  repeat case_decide;
  repeat match goal with
  | H : _ /\ _ |- _ => destruct H
  | H : _ ∈ [] |- _ => by apply elem_of_nil in H
  | H : _ ∈ _ :: _ |- _ => apply elem_of_cons in H as [->|H]
  end;
  try done;
  try (exfalso;
       match goal with
       | H : ~ _ |- _ => apply H; rewrite ?elem_of_cons; by auto
       end).

Section RelocationMore.
Variable E : env.

(** without a resource directory the stage raises at its first line *)
Lemma moveIconToApp_without_resources a s :
  resources (disk s) = None ->
  exists e,
    moveIconToApp E a s = (Raise e, add_entered MoveIconToApp s) /\
    exn_type e = FileNotFoundError.
Proof.
  intros Hr. unfold moveIconToApp, listdir. run_m.
  destruct s as [[od ip rs cs] ic pr sp en]; simpl in *. subst rs. simpl.
  eexists. split; reflexivity.
Qed.

(** the first loop when a name already in the backup may be replaced *)
Lemma backupLoop_replaces l rs b :
  NoDup l ->
  rs !! "oldFiles" = Some (Dir b) ->
  (forall f, f ∈ l -> f <> "oldFiles" ->
     PyStr.contains "oldFiles" f = false /\ is_Some (rs !! f) /\ backs_up_cleanly rs b f) ->
  (backupLoop l rs).1 = None /\
  exists b',
    (backupLoop l rs).2 !! "oldFiles" = Some (Dir b') /\
    (forall j, b' !! j = if decide (j ∈ l /\ j <> "oldFiles") then rs !! j else b !! j) /\
    (forall k, k <> "oldFiles" ->
       (backupLoop l rs).2 !! k = if decide (k ∈ l) then None else rs !! k).
Proof.
  revert rs b. induction l as [|f rest IH]; intros rs b Hnd Hb Hl.
  - simpl. split; [done|]. exists b. split; [done|].
    split; intros; list_cases.
  - apply NoDup_cons in Hnd as [Hf Hnd]. simpl.
    destruct (decide (f = "oldFiles")) as [->|Hne].
    + change (PyStr.contains "oldFiles" "oldFiles") with true. simpl.
      destruct (IH rs b Hnd Hb) as (Hnone & b' & Hb' & Hin & Hout).
      { intros g Hg. apply Hl. by right. }
      split; [done|]. exists b'. split; [done|]. split.
      * intros j. rewrite Hin. list_cases.
      * intros k Hk. rewrite Hout by done. list_cases.
    + destruct (Hl f) as (Hc & [n Hn] & Hclean); [by left|done|].
      rewrite Hc. simpl.
      assert (Hmove : FS.move_into_backup rs f
                      = inr (<["oldFiles" := Dir (<[f := n]> b)]> (delete f rs))).
      { unfold FS.move_into_backup, FS.move. rewrite Hb.
        destruct (decide (f = "oldFiles")); [done|].
        destruct Hclean as [Hbf|(x & y & Hx & Hy)].
        - by rewrite Hbf, Hn.
        - rewrite Hy, Hx. rewrite Hx in Hn. by injection Hn as <-. }
      rewrite Hmove.
      destruct (IH (<["oldFiles" := Dir (<[f := n]> b)]> (delete f rs)) (<[f := n]> b) Hnd)
        as (Hnone & b' & Hb' & Hin & Hout).
      { apply lookup_insert_eq. }
      { intros g Hg Hgo. destruct (Hl g) as (? & ? & Hcg); [by right|done|].
        assert (g <> f) by (intros ->; done).
        split; [done|]. split; [by rewrite lookup_insert_ne, lookup_delete_ne|].
        destruct Hcg as [Hbg|(x & y & Hx & Hy)]; [left|right].
        - by rewrite lookup_insert_ne.
        - exists x, y. by rewrite !lookup_insert_ne, lookup_delete_ne. }
      split; [done|]. exists b'. split; [done|]. split.
      * intros j. rewrite Hin.
        destruct (decide (j = f)) as [->|Hjf].
        -- rewrite lookup_insert_eq. list_cases.
        -- rewrite (lookup_insert_ne b f) by done.
           list_cases. by rewrite lookup_insert_ne, lookup_delete_ne.
      * intros k Hk. rewrite Hout by done.
        rewrite lookup_insert_ne by done.
        destruct (decide (k = f)) as [->|Hkf].
        -- rewrite lookup_delete_eq. list_cases.
        -- rewrite lookup_delete_ne by done. list_cases.
Qed.

(** what the first loop leaves of a fully listed resource directory *)
Lemma backupLoop_full_listing rs :
  listing_ok E ->
  (forall x, rs !! "oldFiles" <> Some (File x)) ->
  (forall f, is_Some (rs !! f) -> f <> "oldFiles" ->
     PyStr.contains "oldFiles" f = false /\ backs_up_cleanly rs (backupOf rs) f) ->
  backupLoop (listingOf E rs) (withBackupDir rs) =
  (None, {["oldFiles" := Dir (delete "oldFiles" rs ∪ backupOf rs)]}).
Proof.
  intros Hok Hnf Hnames.
  assert (Hb1 : withBackupDir rs !! "oldFiles" = Some (Dir (backupOf rs))).
  { unfold withBackupDir, backupOf.
    destruct (rs !! "oldFiles") as [[x|b]|] eqn:Hb; [by destruct (Hnf x)|done|].
    apply lookup_insert_eq. }
  assert (Hother : forall k, k <> "oldFiles" -> withBackupDir rs !! k = rs !! k).
  { intros k Hk. unfold withBackupDir.
    destruct (rs !! "oldFiles"); [done|]. by rewrite lookup_insert_ne. }
  destruct (backupLoop_replaces (listingOf E rs) (withBackupDir rs) (backupOf rs))
    as (Hnone & b' & Hb' & Hin & Hout).
  { unfold listingOf. rewrite (Hok _). apply NoDup_fst_map_to_list. }
  { done. }
  { intros f Hf Hne. apply (listingOf_elem E rs f Hok) in Hf.
    destruct (Hnames f Hf Hne) as [? Hcl]. rewrite Hother by done.
    split; [done|]. split; [done|].
    destruct Hcl as [?|(x & y & ? & ?)]; [by left|right].
    exists x, y. by rewrite Hother. }
  destruct (backupLoop (listingOf E rs) (withBackupDir rs)) as [r rs2]. simpl in *.
  subst r. f_equal. apply map_eq. intros k.
  destruct (decide (k = "oldFiles")) as [->|Hk].
  - rewrite lookup_singleton_eq, Hb'. f_equal. f_equal.
    apply map_eq. intros j. rewrite Hin. rewrite lookup_union. case_decide as Hj.
    + destruct Hj as [Hj Hne]. rewrite Hother by done.
      apply (listingOf_elem E rs j Hok) in Hj as [n Hn].
      rewrite lookup_delete_ne by done. rewrite Hn.
      by destruct (backupOf rs !! j).
    + assert (delete "oldFiles" rs !! j = None) as ->.
      { destruct (decide (j = "oldFiles")) as [->|Hne]; [apply lookup_delete_eq|].
        rewrite lookup_delete_ne by done.
        destruct (rs !! j) eqn:Hrj; [|done]. exfalso. apply Hj. split; [|done].
        apply (listingOf_elem E rs j Hok). by rewrite Hrj. }
      by destruct (backupOf rs !! j).
  - rewrite lookup_singleton_ne by done. rewrite Hout by done.
    case_decide as Hl; [done|]. rewrite Hother by done.
    destruct (rs !! k) eqn:Hrk; [|done]. exfalso. apply Hl.
    apply (listingOf_elem E rs k Hok). by rewrite Hrk.
Qed.

(** what the second loop does with a fully listed scratch directory when
    Resources holds the backup directory only *)
Lemma installLoop_full_listing od b :
  listing_ok E ->
  od !! "oldFiles" = None ->
  installLoop (listingOf E od) od {["oldFiles" := Dir b]} =
  (None, (∅, <["oldFiles" := Dir b]> od)).
Proof.
  intros Hok Hfree.
  destruct (installLoop_moves (listingOf E od) od {["oldFiles" := Dir b]})
    as (Hnone & Hod & Hrs).
  { unfold listingOf. rewrite (Hok _). apply NoDup_fst_map_to_list. }
  { intros f Hf. apply (listingOf_elem E od f Hok) in Hf. split; [done|].
    apply lookup_singleton_ne. intros <-. rewrite Hfree in Hf. by destruct Hf. }
  destruct (installLoop (listingOf E od) od {["oldFiles" := Dir b]}) as [r [od' rs3]].
  simpl in *. subst r. f_equal. f_equal; apply map_eq; intros k.
  - rewrite Hod, lookup_empty. case_decide as Hl; [done|].
    destruct (od !! k) eqn:Hk; [|done]. exfalso. apply Hl.
    apply (listingOf_elem E od k Hok). by rewrite Hk.
  - rewrite Hrs. destruct (decide (k = "oldFiles")) as [->|Hk].
    + rewrite lookup_insert_eq, lookup_singleton_eq. case_decide as Hl; [|done].
      apply (listingOf_elem E od _ Hok) in Hl. rewrite Hfree in Hl. by destruct Hl.
    + rewrite lookup_insert_ne, lookup_singleton_ne by done. case_decide as Hl; [done|].
      destruct (od !! k) eqn:Hk'; [|done]. exfalso. apply Hl.
      apply (listingOf_elem E od k Hok). by rewrite Hk'.
Qed.

Lemma moveIconToApp_regular a s rs od :
  listing_ok E ->
  resources (disk s) = Some (Dir rs) ->
  outputDir (disk s) = Some (Dir od) ->
  (forall x, rs !! "oldFiles" <> Some (File x)) ->
  (forall f, is_Some (rs !! f) -> f <> "oldFiles" ->
     PyStr.contains "oldFiles" f = false /\ backs_up_cleanly rs (backupOf rs) f) ->
  od !! "oldFiles" = None ->
  exists s' b',
    moveIconToApp E a s = (Return tt, s') /\
    resources (disk s') = Some (Dir (<["oldFiles" := Dir b']> od)) /\
    outputDir (disk s') = Some (Dir ∅) /\
    b' = delete "oldFiles" rs ∪ backupOf rs /\
    (forall f n, rs !! f = Some n -> f <> "oldFiles" -> b' !! f = Some n) /\
    (forall f, rs !! f = None -> b' !! f = backupOf rs !! f).
Proof.
  intros Hok Hrs Hod Hnf Hnames Hfree.
  destruct (moveIconToApp E a s) as [o s'] eqn:Hrun.
  exists s', (delete "oldFiles" rs ∪ backupOf rs).
  pose proof (moveIconToApp_run E a s rs od o s' Hrs Hod Hrun) as H. cbv zeta in H.
  fold (listingOf E rs) in H. fold (listingOf E od) in H.
  rewrite (backupLoop_full_listing rs Hok Hnf Hnames) in H. simpl in H.
  rewrite (installLoop_full_listing od _ Hok Hfree) in H. simpl in H.
  destruct H as (-> & -> & ->). repeat split; try done.
  - intros f n Hn Hne. apply lookup_union_Some_l. by rewrite lookup_delete_ne.
  - intros f Hn. rewrite lookup_union.
    assert (delete "oldFiles" rs !! f = None) as ->.
    { destruct (decide (f = "oldFiles")) as [->|?]; [apply lookup_delete_eq|].
      by rewrite lookup_delete_ne. }
    by destruct (backupOf rs !! f).
Qed.

(** The stage on regular resources: it returns with Resources holding
    the compiled artifacts and the backup directory only, and the backup
    holding what it held except that a same-named regular file is
    replaced by the resource that was moved in. *)
Lemma moveIconToApp_replaces_older_backup a s rs od :
  listing_ok E ->
  resources (disk s) = Some (Dir rs) ->
  outputDir (disk s) = Some (Dir od) ->
  (forall x, rs !! "oldFiles" <> Some (File x)) ->
  (forall f, is_Some (rs !! f) -> f <> "oldFiles" ->
     PyStr.contains "oldFiles" f = false /\ backs_up_cleanly rs (backupOf rs) f) ->
  od !! "oldFiles" = None ->
  exists s' b',
    moveIconToApp E a s = (Return tt, s') /\
    resources (disk s') = Some (Dir (<["oldFiles" := Dir b']> od)) /\
    outputDir (disk s') = Some (Dir ∅) /\
    b' = delete "oldFiles" rs ∪ backupOf rs /\
    (forall f n, rs !! f = Some n -> f <> "oldFiles" -> b' !! f = Some n) /\
    (forall f, rs !! f = None -> b' !! f = backupOf rs !! f).
Proof. exact (moveIconToApp_regular a s rs od). Qed.

(** Without [./OutputDir] the stage has already emptied Resources into the
    backup when it raises: the bundle is left with no resources but the
    backup directory. *)
Lemma moveIconToApp_without_output_dir a s rs :
  listing_ok E ->
  resources (disk s) = Some (Dir rs) ->
  outputDir (disk s) = None ->
  (forall x, rs !! "oldFiles" <> Some (File x)) ->
  (forall f, is_Some (rs !! f) -> f <> "oldFiles" ->
     PyStr.contains "oldFiles" f = false /\ backs_up_cleanly rs (backupOf rs) f) ->
  exists e s',
    moveIconToApp E a s = (Raise e, s') /\
    exn_type e = FileNotFoundError /\
    resources (disk s') =
      Some (Dir {["oldFiles" := Dir (delete "oldFiles" rs ∪ backupOf rs)]}).
Proof.
  intros Hok Hrs Hod Hnf Hnames.
  pose proof (backupLoop_full_listing rs Hok Hnf Hnames) as Hback.
  unfold listingOf in Hback.
  unfold moveIconToApp, listdir, set_resources. run_m.
  destruct s as [[od0 ip rs0 cs] ic pr sp en]; simpl in *. subst od0 rs0. simpl.
  rewrite ensureBackupDir_run, Hback. simpl.
  eexists _, _. split; [reflexivity|]. split; reflexivity.
Qed.

End RelocationMore.

Section WholeRun.
Variable E : env.
Variable self : cfg.

Lemma fs_eta (d : fs) :
  d = Fs (outputDir d) (infoPlist d) (resources d) (codeSignature d).
Proof. by destruct d. Qed.

(** A run on a well-formed bundle with working tools and a serializer
    that returns on the edited dictionary returns, whatever exit status
    [codesign] had, and leaves: the scratch directory empty, the metadata
    file as the serializer wrote it for the dictionary with the
    identifier under CFBundleIconName, Resources holding the renamed
    artifacts and the backup of what was there, and the signature
    [codesign] produced. *)
Lemma run_installs_icon d m f rs name r produced c1 c2 cp rc sig :
  listing_ok E ->
  run_clear E = inr c1 ->
  run_actool_bare E = inr c2 ->
  path_resolve E (appBundlePath self +:+ "/Contents") = None ->
  path_resolve E (iconBundlePath self) = None ->
  path_resolve E (appBundlePath self) = None ->
  (forall x, outputDir d <> Some (File x)) ->
  infoPlist d = Some (Parsed (PDict m)) ->
  resources d = Some (Dir rs) ->
  (forall x, rs !! "oldFiles" <> Some (File x)) ->
  (forall f, is_Some (rs !! f) -> f <> "oldFiles" ->
     PyStr.contains "oldFiles" f = false /\ backs_up_cleanly rs (backupOf rs) f) ->
  deriveIconName (iconBundlePath self) = Some name ->
  plist_dump E (PDict (edited "" name m)) = Whole f ->
  run_actool E (actoolArgs (iconBundlePath self) name) ∅ = inr (r, produced) ->
  (forall k n, produced !! k = Some n -> FS.is_file n = true) ->
  found (which E "codesign") = Some cp ->
  (forall xp, found (which E "xattr") = Some xp ->
     exists c, run_xattr E [xp; "-cr"; pathlib_str E (appBundlePath self)] = inr c) ->
  run_codesign E (codesignArgs E cp (appBundlePath self) "-")
    (withoutSignature (installed E d f rs produced)) = inr (rc, sig) ->
  exists s',
    run E self d = (Return tt, s') /\
    disk s' =
      Fs (Some (Dir ∅))
         (infoPlist (installed E d f rs produced))
         (resources (installed E d f rs produced)) sig /\
    iconName s' = Some name.
Proof.
  intros Hok Hclear Hbare Hp1 Hp2 Hp3 Hod Hplist Hres Hnf Hnames Hname Hdump Hact Hreg
         Hcs Hx Hsign.
  unfold run. rewrite init_run.
  (* validateData *)
  destruct (validateData_returns E self "" (fresh d) c1 c2 Hclear Hbare)
    as (s1 & H1 & Hd1 & Hi1 & _).
  { simpl. intros e He. rewrite Hp1 in He. done. }
  rewrite H1. simpl in Hd1, Hi1.
  (* compileIcon *)
  destruct (compileIcon_valid E self (iconBundlePath self) s1 name r produced Hp2)
    as (s2 & H2 & Hout2); [by rewrite Hd1|done|done|].
  pose proof (listingOf_regular E produced Hok Hreg) as Hlist.
  destruct (renameLoop_regular _ _ Hlist) as [Hnone _]. rewrite Hnone in H2.
  rewrite H2.
  destruct (compileIcon_frame _ _ _ _ _ _ H2) as (Hip2 & Hrs2 & Hcs2 & _ & _ & Hin2).
  specialize (Hin2 eq_refl Hp2). rewrite Hname in Hin2.
  rewrite Hd1 in Hip2, Hrs2, Hcs2.
  (* updateInfoPlist *)
  assert (Hm2 : infoPlist (disk s2) = Some (Parsed (PDict m))) by by rewrite Hip2.
  rewrite (updateInfoPlist_writes E _ "" s2 m name Hm2 Hin2), Hdump.
  set (s3 := with_disk _ (add_entered UpdateInfoPlist s2)).
  (* moveIconToApp *)
  destruct (moveIconToApp_regular E "" s3 rs (artifacts E produced) Hok)
    as (s4 & b' & H4 & Hrs4 & Hod4 & -> & _); try done.
  { by rewrite <- Hres, <- Hrs2. }
  { by apply artifacts_names. }
  rewrite H4.
  destruct (moveIconToApp_frame _ _ _ _ _ H4) as (Hip4 & Hcs4 & Hin4 & _).
  simpl in Hip4, Hcs4, Hin4.
  assert (Hdisk4 : disk s4 = installed E d f rs produced).
  { rewrite (fs_eta (disk s4)). unfold installed.
    by rewrite Hod4, Hip4, Hrs4, Hcs4, Hcs2. }
  (* resignAppForLocalUse *)
  destruct (resign_with_codesign E self "" "-" s4 cp rc sig)
    as (s5 & H5 & Hsig & _); try done.
  { by rewrite Hdisk4. }
  rewrite H5.
  destruct (resignAppForLocalUse_frame _ _ _ _ _ _ _ H5) as (Ho5 & Hip5 & Hrs5 & Hin5 & _).
  exists s5. split; [done|]. split.
  - rewrite (fs_eta (disk s5)). rewrite Ho5, Hip5, Hrs5, Hsig, Hdisk4. done.
  - by rewrite Hin5, Hin4.
Qed.

End WholeRun.

(** ** The drop box *)

Section GuiFacts.
Import Gui.
Variable path_exists : string -> bool.

Lemma lower_length s : String.length (lower s) = String.length s.
Proof. induction s; simpl; congruence. Qed.

Lemma drop_length n s : String.length (PyStr.drop n s) = String.length s - n.
Proof.
  revert n. induction s as [|c s IH]; intros [|n]; simpl; done.
Qed.

Lemma last4_length s : String.length (last4 s) <= 4.
Proof. unfold last4. rewrite drop_length. lia. Qed.

(** a box whose extension is longer than four characters accepts no path *)
Lemma setPath_long_extension p b :
  String.length (fileExtenstion b) > 4 -> setPath path_exists p b = b.
Proof.
  intros Hlen. unfold setPath, suffix_matches.
  destruct (_ || _); [done|].
  destruct (String.eqb_spec (lower (last4 (remove_char "/" (strip p)))) (fileExtenstion b))
    as [Heq|]; [|done].
  exfalso. pose proof (last4_length (remove_char "/" (strip p))) as H4.
  rewrite <- Heq, lower_length in Hlen. lia.
Qed.

Lemma handle_long_extension b ev :
  String.length (fileExtenstion b) > 4 ->
  path_ (handle path_exists b ev) = path_ b /\
  emitted (handle path_exists b ev) = emitted b /\
  fileExtenstion (handle path_exists b ev) = fileExtenstion b.
Proof.
  intros Hlen. destruct ev as [p|h urls| |urls|l f]; simpl.
  - by rewrite setPath_long_extension.
  - unfold dragEnterEvent. by destruct (_ && _).
  - done.
  - unfold dropEvent. destruct urls as [|u urls]; [done|]. simpl.
    destruct (if isLocalFile u then _ else _); by rewrite ?setPath_long_extension.
  - unfold mousePressEvent. destruct l; [|done].
    destruct (negb _); by rewrite ?setPath_long_extension.
Qed.

(** such a box never selects a path and never emits a signal, whatever
    happens to it: so for the extension ".icon" *)
Lemma long_extension_never_selects caption filter ext evs :
  String.length ext > 4 ->
  path_ (after path_exists evs (new caption filter ext)) = "" /\
  emitted (after path_exists evs (new caption filter ext)) = [].
Proof.
  intros Hlen. unfold after.
  assert (Hgen : forall b, String.length (fileExtenstion b) > 4 ->
            path_ (foldl (handle path_exists) b evs) = path_ b /\
            emitted (foldl (handle path_exists) b evs) = emitted b).
  { induction evs as [|ev evs IH]; intros b Hb; [done|]. simpl.
    destruct (handle_long_extension b ev Hb) as (Hp & He & Hx).
    destruct (IH (handle path_exists b ev)) as [-> ->]; [by rewrite Hx|done]. }
  apply (Hgen (new caption filter ext)). simpl. by rewrite lower_length.
Qed.

Lemma setPath_extension p b :
  fileExtenstion (setPath path_exists p b) = fileExtenstion b.
Proof.
  unfold setPath. destruct (_ || _); [done|]. by destruct (negb _).
Qed.

Lemma setPath_consistent p b :
  selection_consistent b -> selection_consistent (setPath path_exists p b).
Proof.
  intros [Hall Hlast]. unfold setPath.
  destruct (String.eqb_spec (strip p) "") as [|Hne]; [done|]. simpl.
  destruct (path_exists (strip p)); [|done]. simpl.
  destruct (suffix_matches b (strip p)) eqn:Hs; [|done]. simpl.
  split; simpl.
  - intros q e Hq. apply elem_of_app in Hq as [Hq|Hq].
    + destruct (Hall q e Hq) as (? & ? & ?). done.
    + apply list_elem_of_singleton in Hq as [= -> ->]. done.
  - by rewrite last_snoc.
Qed.

Lemma with_label_consistent text b :
  selection_consistent b -> selection_consistent (with_label text b).
Proof. done. Qed.

Lemma handle_consistent b ev :
  selection_consistent b -> selection_consistent (handle path_exists b ev).
Proof.
  intros Hb. destruct ev as [p|h urls| |urls|l f]; simpl.
  - by apply setPath_consistent.
  - unfold dragEnterEvent. by destruct (_ && _).
  - done.
  - unfold dropEvent. destruct urls as [|u urls]; [done|]. simpl.
    apply with_label_consistent.
    destruct (if isLocalFile u then _ else _); [by apply setPath_consistent|done].
  - unfold mousePressEvent. destruct l; [|done].
    destruct (negb _); [by apply setPath_consistent|done].
Qed.

(** After any sequence of events on a new box, every signal emitted
    carries the box's extension and a non-empty path that passed the
    suffix test, and the stored path is that of the last signal (empty
    when there was none). *)
Lemma selection_always_consistent caption filter ext evs :
  selection_consistent (after path_exists evs (new caption filter ext)).
Proof.
  unfold after.
  assert (Hgen : forall b, selection_consistent b ->
            selection_consistent (foldl (handle path_exists) b evs)).
  { induction evs as [|ev evs IH]; intros b Hb; [done|]. simpl.
    by apply IH, handle_consistent. }
  apply Hgen. split; [|done]. intros p e Hp. by apply elem_of_nil in Hp.
Qed.

(** a drop tries the first local file only: when that one is refused, the
    selection stays as it was, whatever the other files are *)
Lemma dropEvent_first_local_only pre u post b :
  Forall (fun v => isLocalFile v = false) pre ->
  isLocalFile u = true ->
  path_ (dropEvent path_exists (pre ++ u :: post) b).1
    = path_ (setPath path_exists (toLocalFile u) b) /\
  emitted (dropEvent path_exists (pre ++ u :: post) b).1
    = emitted (setPath path_exists (toLocalFile u) b) /\
  (dropEvent path_exists (pre ++ u :: post) b).2 = true.
Proof.
  intros Hpre Hu.
  assert (Hfirst : firstLocal (pre ++ u :: post) = Some (toLocalFile u)).
  { induction Hpre as [|v pre Hv _ IH]; simpl; [by rewrite Hu|by rewrite Hv]. }
  unfold dropEvent. rewrite Hfirst.
  destruct (pre ++ u :: post) eqn:Hl; [by destruct pre|]. done.
Qed.

Lemma rfind_app_sep q : PyStr.rfind "/" (q +:+ "/") = Some (String.length q).
Proof.
  induction q as [|c q IH]; [done|].
  change (String c q +:+ "/") with (String c (q +:+ "/")). simpl.
  by rewrite IH.
Qed.

Lemma drop_all q : PyStr.drop (S (String.length q)) (q +:+ "/") = "".
Proof.
  induction q as [|c q IH]; [done|].
  change (String c q +:+ "/") with (String c (q +:+ "/")). simpl. exact IH.
Qed.

(** a path accepted with a trailing "/" is stored as it is and leaves the
    label empty *)
Lemma setPath_trailing_slash p q b :
  strip p = q +:+ "/" ->
  path_exists (strip p) = true ->
  suffix_matches b (strip p) = true ->
  path_ (setPath path_exists p b) = q +:+ "/" /\
  labelText (setPath path_exists p b) = "".
Proof.
  intros Hq Hex Hs. unfold setPath. rewrite Hex, Hs.
  destruct (String.eqb_spec (strip p) "") as [He|_].
  - rewrite Hq in He. by destruct q.
  - simpl. split; [done|]. rewrite Hq. unfold basename.
    rewrite rfind_app_sep. apply drop_all.
Qed.

End GuiFacts.

(** ** The further properties on concrete cases *)

Lemma rocketFiles_regular k n :
  Cases.rocketFiles !! k = Some n -> FS.is_file n = true.
Proof.
  intros Hk. assert (Hs : is_Some (Cases.rocketFiles !! k)) by by rewrite Hk.
  unfold Cases.rocketFiles in *.
  apply lookup_insert_is_Some_inv in Hs as [->|Hs]; [by simplify_map_eq|].
  apply lookup_insert_is_Some_inv in Hs as [->|Hs]; [by simplify_map_eq|].
  rewrite lookup_empty in Hs. by destruct Hs.
Qed.

Lemma oldResources_clean f :
  is_Some (Cases.oldResources !! f) -> f <> "oldFiles" ->
  PyStr.contains "oldFiles" f = false /\
  backs_up_cleanly Cases.oldResources (backupOf Cases.oldResources) f.
Proof.
  intros Hs _. unfold Cases.oldResources in *.
  apply lookup_insert_is_Some_inv in Hs as [->|Hs].
  - split; [reflexivity|]. left. reflexivity.
  - rewrite lookup_empty in Hs. by destruct Hs.
Qed.

Lemma secondResources_clean f :
  is_Some (Cases.secondResources !! f) -> f <> "oldFiles" ->
  PyStr.contains "oldFiles" f = false /\
  backs_up_cleanly Cases.secondResources (backupOf Cases.secondResources) f.
Proof.
  intros Hs Hne. unfold Cases.secondResources in *.
  apply lookup_insert_is_Some_inv in Hs as [->|Hs].
  - split; [reflexivity|]. right. exists "newer", "old". split; reflexivity.
  - apply lookup_insert_is_Some_inv in Hs as [->|Hs]; [done|].
    rewrite lookup_empty in Hs. by destruct Hs.
Qed.

Lemma stages_run_in_order_witness :
  entered (run Scenario.tools Scenario.args Scenario.disk0).2 =
    [ValidateData; CompileIcon; UpdateInfoPlist; MoveIconToApp; ResignAppForLocalUse].
Proof.
  apply (proj2 (proj2 (stages_run_in_order Scenario.tools Scenario.args Scenario.disk0))).
  vm_compute. reflexivity.
Defined.

Lemma missing_actool_stops_run_witness :
  run Cases.toolsNoActool Scenario.args Scenario.disk0 =
  (Raise Cases.actoolMissing,
   State Scenario.disk0 None [] [["clear"]; ["actool"]] [ValidateData]).
Proof.
  apply (missing_actool_stops_run Cases.toolsNoActool Scenario.args Scenario.disk0
           (Completed 0 "" "") Cases.actoolMissing); reflexivity.
Defined.

Lemma validateData_checks_do_not_halt_witness :
  exists s',
    validateData Cases.toolsBundleUnresolvable Scenario.args "" Scenario.start
      = (Return tt, s') /\
    disk s' = disk Scenario.start.
Proof.
  destruct (validateData_checks_do_not_halt Cases.toolsBundleUnresolvable Scenario.args
              "" Scenario.start (Completed 0 "" "") (Completed 1 "" "usage")
              eq_refl eq_refl)
    as (s' & Hrun & Hdisk & _).
  - intros e He. injection He as <-. reflexivity.
  - exists s'. split; [exact Hrun|exact Hdisk].
Defined.

Lemma compileIcon_resets_output_dir_witness :
  exists s',
    compileIcon Scenario.toolsIconUnresolvable Scenario.args "icons/Rocket.icon"
      (fresh Scenario.diskSimilarName) = (Return tt, s') /\
    outputDir (disk s') = Some (Dir ∅).
Proof.
  destruct (compileIcon_resets_output_dir Scenario.toolsIconUnresolvable Scenario.args
              "icons/Rocket.icon" (fresh Scenario.diskSimilarName) Scenario.loopError
              eq_refl eq_refl)
    as (s' & Hrun & Hout & _).
  - discriminate.
  - exists s'. split; [exact Hrun|exact Hout].
Defined.

Lemma compileIcon_output_dir_is_file_witness :
  exists e,
    compileIcon Scenario.tools Scenario.args "icons/Rocket.icon" (fresh Cases.diskOutputFile)
      = (Raise e, add_entered CompileIcon (fresh Cases.diskOutputFile)) /\
    exn_type e = NotADirectoryError.
Proof.
  exact (compileIcon_output_dir_is_file Scenario.tools Scenario.args "icons/Rocket.icon"
           (fresh Cases.diskOutputFile) "x" eq_refl).
Defined.

Lemma compileIcon_ignores_exit_status_witness :
  iconName (compileIcon Cases.toolsActoolFails Scenario.args "icons/Rocket.icon"
              Scenario.start).2 = Some "Rocket".
Proof.
  apply (compileIcon_ignores_exit_status Cases.toolsActoolFails Scenario.args
           "icons/Rocket.icon" Scenario.start "Rocket" Cases.actoolFailure ∅).
  - reflexivity.
  - discriminate.
  - reflexivity.
  - reflexivity.
Defined.

Lemma renaming_is_stable_witness :
  renameLoop (listingOf Scenario.tools (artifacts Scenario.tools Cases.rocketFiles))
    (artifacts Scenario.tools Cases.rocketFiles)
  = (None, artifacts Scenario.tools Cases.rocketFiles).
Proof.
  apply (renaming_is_stable Scenario.tools Cases.rocketFiles tools_listing_ok).
  exact rocketFiles_regular.
Defined.

Lemma artifacts_avoid_backup_name_witness :
  artifacts Scenario.tools Cases.rocketFiles !! "oldFiles" = None.
Proof.
  apply (artifacts_avoid_backup_name Scenario.tools Cases.rocketFiles tools_listing_ok).
  exact rocketFiles_regular.
Defined.

Lemma deriveIconName_lacks_separators_witness :
  PyStr.rfind "/" "Rocket" = None /\ PyStr.rfind "." "Rocket" = None.
Proof.
  apply (deriveIconName_lacks_separators "icons/Rocket.icon" "Rocket"). reflexivity.
Defined.

Lemma deriveIconName_empty_witness :
  deriveIconName ("icons/Rocket.icon" +:+ "/") = Some "" /\
  deriveIconName ("icons/Rocket.icon" +:+ String "/" (String "." "Rocket.icon")) = Some "" /\
  deriveIconName (String "." "Rocket.icon") = Some "".
Proof.
  apply (deriveIconName_empty "icons/Rocket.icon" "Rocket.icon"). reflexivity.
Defined.

Lemma updateInfoPlist_raise_leaves_or_cuts_witness :
  exists e s',
    updateInfoPlist Scenario.tools "MyApp.app/Contents/Info.plist" ""
      (with_iconName "Rocket" (fresh Cases.diskBigInteger)) = (Raise e, s') /\
    (disk s' = Cases.diskBigInteger \/
     exists m n unreadable,
       infoPlist Cases.diskBigInteger = Some (Parsed (PDict m)) /\
       Some "Rocket" = Some n /\
       plist_dump Scenario.tools (PDict (edited "" n m)) = CutShort e unreadable /\
       disk s' = Fs (outputDir Cases.diskBigInteger) (Some (Unparseable unreadable))
                    (resources Cases.diskBigInteger)
                    (codeSignature Cases.diskBigInteger)).
Proof.
  assert (H : exists e s',
            updateInfoPlist Scenario.tools "MyApp.app/Contents/Info.plist" ""
              (with_iconName "Rocket" (fresh Cases.diskBigInteger)) = (Raise e, s'))
    by (eexists _, _; vm_compute; reflexivity).
  destruct H as (e & s' & H). exists e, s'. split; [exact H|].
  exact (updateInfoPlist_raise_leaves_or_cuts Scenario.tools
           "MyApp.app/Contents/Info.plist" ""
           (with_iconName "Rocket" (fresh Cases.diskBigInteger)) e s' H).
Defined.

Lemma updateInfoPlist_refuses_witness :
  exists e,
    updateInfoPlist Scenario.tools "MyApp.app/Contents/Info.plist" ""
      (with_iconName "Rocket" (fresh Cases.diskArrayPlist))
    = (Raise e, add_entered UpdateInfoPlist
                  (with_iconName "Rocket" (fresh Cases.diskArrayPlist))) /\
    exn_type e = TypeError.
Proof.
  apply (proj1 (updateInfoPlist_refuses Scenario.tools "MyApp.app/Contents/Info.plist" ""
                  (with_iconName "Rocket" (fresh Cases.diskArrayPlist)) "Rocket" eq_refl)
           (PArray [])).
  - reflexivity.
  - discriminate.
Defined.

Lemma updateInfoPlist_twice_witness :
  exists s1 s2,
    updateInfoPlist Scenario.tools "MyApp.app/Contents/Info.plist" ""
      (with_iconName "Rocket" Scenario.start) = (Return tt, s1) /\
    updateInfoPlist Scenario.tools "MyApp.app/Contents/Info.plist" "" s1 = (Return tt, s2) /\
    disk s2 = disk s1.
Proof.
  destruct (updateInfoPlist_twice Scenario.tools "MyApp.app/Contents/Info.plist" ""
              (with_iconName "Rocket" Scenario.start)
              (<["CFBundleName" := PStr "MyApp"]> ∅) "Rocket" eq_refl eq_refl)
    as [Hexact _].
  apply Hexact. vm_compute. reflexivity.
Defined.

Lemma moveIconToApp_without_resources_witness :
  exists e,
    moveIconToApp Scenario.tools "" (fresh Cases.diskNoResources)
      = (Raise e, add_entered MoveIconToApp (fresh Cases.diskNoResources)) /\
    exn_type e = FileNotFoundError.
Proof.
  exact (moveIconToApp_without_resources Scenario.tools "" (fresh Cases.diskNoResources)
           eq_refl).
Defined.

Lemma moveIconToApp_replaces_older_backup_witness :
  exists s' b',
    moveIconToApp Scenario.tools "" (fresh Cases.diskSecondRun) = (Return tt, s') /\
    resources (disk s') = Some (Dir (<["oldFiles" := Dir b']> Cases.secondArtifacts)) /\
    b' !! "old.icns" = Some (File "newer").
Proof.
  destruct (moveIconToApp_replaces_older_backup Scenario.tools ""
              (fresh Cases.diskSecondRun) Cases.secondResources Cases.secondArtifacts
              tools_listing_ok eq_refl eq_refl)
    as (s' & b' & Hrun & Hres & _ & _ & Hmoved & _).
  - intros x. vm_compute. discriminate.
  - exact secondResources_clean.
  - vm_compute. reflexivity.
  - exists s', b'. split; [exact Hrun|]. split; [exact Hres|].
    apply Hmoved; [vm_compute; reflexivity|discriminate].
Defined.

Lemma moveIconToApp_without_output_dir_witness :
  exists e s',
    moveIconToApp Scenario.tools "" (fresh Cases.diskNoOutput) = (Raise e, s') /\
    exn_type e = FileNotFoundError /\
    resources (disk s') =
      Some (Dir {["oldFiles" := Dir (delete "oldFiles" Cases.oldResources
                                      ∪ backupOf Cases.oldResources)]}).
Proof.
  apply (moveIconToApp_without_output_dir Scenario.tools "" (fresh Cases.diskNoOutput)
           Cases.oldResources tools_listing_ok eq_refl eq_refl).
  - intros x. vm_compute. discriminate.
  - exact oldResources_clean.
Defined.

Lemma resign_unresolvable_bundle_witness :
  exists s',
    resignAppForLocalUse Cases.toolsAppUnresolvable Scenario.args "" "-" Scenario.start
      = (Return false, s') /\
    disk s' = disk Scenario.start /\ spawned s' = spawned Scenario.start.
Proof.
  destruct (resign_unresolvable_bundle Cases.toolsAppUnresolvable Scenario.args "" "-"
              Scenario.start Cases.nameTooLong eq_refl eq_refl)
    as (s' & Hrun & Hd & Hs & _).
  exists s'. split; [exact Hrun|]. split; [exact Hd|exact Hs].
Defined.

Lemma resign_result_is_codesign_status_witness :
  exists s',
    resignAppForLocalUse Cases.toolsCodesignFails Scenario.args "" "-" Scenario.start
      = (Return false, s') /\
    codeSignature (disk s') = None.
Proof.
  destruct (resign_result_is_codesign_status Cases.toolsCodesignFails Scenario.args
              "" "-" Scenario.start "/usr/bin/codesign" Cases.codesignFailure None)
    as (s' & Hrun & Hsig & _).
  - reflexivity.
  - reflexivity.
  - intros xp _. exists (Completed 0 "" ""). reflexivity.
  - reflexivity.
  - exists s'. split; [exact Hrun|exact Hsig].
Defined.

Lemma run_installs_icon_witness :
  exists s',
    run Cases.toolsCodesignFails Scenario.args Scenario.disk0 = (Return tt, s') /\
    iconName s' = Some "Rocket" /\
    codeSignature (disk s') = None.
Proof.
  destruct (run_installs_icon Cases.toolsCodesignFails Scenario.args Scenario.disk0
              (<["CFBundleName" := PStr "MyApp"]> ∅)
              (Parsed (PDict (<["CFBundleIconName" := PStr "Rocket"]>
                                (<["CFBundleName" := PStr "MyApp"]> ∅))))
              Cases.oldResources "Rocket"
              (Completed 0 "" "") Cases.rocketFiles
              (Completed 0 "" "") (Completed 1 "" "usage")
              "/usr/bin/codesign" Cases.codesignFailure None)
    as (s' & Hrun & Hdisk & Hname).
  - intros l. reflexivity.
  - reflexivity.
  - reflexivity.
  - reflexivity.
  - reflexivity.
  - reflexivity.
  - discriminate.
  - reflexivity.
  - reflexivity.
  - intros x. vm_compute. discriminate.
  - exact oldResources_clean.
  - reflexivity.
  - vm_compute. reflexivity.
  - reflexivity.
  - exact rocketFiles_regular.
  - reflexivity.
  - intros xp _. exists (Completed 0 "" ""). reflexivity.
  - reflexivity.
  - exists s'. split; [exact Hrun|]. split; [exact Hname|]. by rewrite Hdisk.
Defined.

Lemma long_extension_never_selects_witness :
  Gui.path_ (Gui.after Cases.everything_exists
               [Gui.SetPath "icons/Rocket.icon"; Gui.MousePress true "icons/Rocket.icon"]
               (Gui.new "Pick an icon" "Icon (*.icon)" ".icon")) = "" /\
  Gui.emitted (Gui.after Cases.everything_exists
                 [Gui.SetPath "icons/Rocket.icon"; Gui.MousePress true "icons/Rocket.icon"]
                 (Gui.new "Pick an icon" "Icon (*.icon)" ".icon")) = [].
Proof.
  apply (long_extension_never_selects Cases.everything_exists). simpl. lia.
Defined.

Lemma dropEvent_first_local_only_witness :
  Gui.path_ (Gui.dropEvent Cases.everything_exists
               [Gui.Url false "https://example.org/MyApp.app";
                Gui.Url true "notes.txt"; Gui.Url true "MyApp.app"] Cases.appBox).1
  = Gui.path_ (Gui.setPath Cases.everything_exists "notes.txt" Cases.appBox).
Proof.
  apply (dropEvent_first_local_only Cases.everything_exists
           [Gui.Url false "https://example.org/MyApp.app"] (Gui.Url true "notes.txt")
           [Gui.Url true "MyApp.app"] Cases.appBox).
  - repeat constructor.
  - reflexivity.
Defined.

Lemma setPath_trailing_slash_witness :
  Gui.path_ (Gui.setPath Cases.everything_exists "MyApp.app/" Cases.appBox) = "MyApp.app/" /\
  Gui.labelText (Gui.setPath Cases.everything_exists "MyApp.app/" Cases.appBox) = "".
Proof.
  apply (setPath_trailing_slash Cases.everything_exists "MyApp.app/" "MyApp.app"
           Cases.appBox); reflexivity.
Defined.
